(** * A shallow embedding of [main.py]

    The application is a FastAPI program over two SQLAlchemy tables
    ([users], [posts]), a bcrypt [CryptContext], a cookie that carries the
    user name, and an upload directory.  Each request handler of [main.py]
    is embedded as a computation in a small state-and-exception monad over a
    [World] (database, file system, trace of side effects); the external
    collaborators (password hashing, the ORDER BY of the database engine,
    the clock, the random sources) are interfaces or explicit inputs. *)

From Stdlib Require Import String Ascii ZArith List Bool Lia Permutation Sorted.
Import ListNotations.
Open Scope string_scope.
Open Scope list_scope.
Open Scope Z_scope.

(** ** Models ([class User(Base)], [class Post(Base)]) *)

Module User.
Record t := mk {
  id : Z;
  username : string;
  email : string;
  hashed_password : string;
  is_admin : bool
}.
End User.

Module Post.
Record t := mk {
  id : Z;
  content : string;
  image_path : option string;
  created_at : Z;
  user_id : Z
}.
End Post.

(** The two tables, each in rowid order (oldest row first). *)
Record Database := {
  users : list User.t;
  posts : list Post.t
}.

Definition empty_database : Database := {| users := []; posts := [] |}.

(** ** Query results: [.count()], [.first()], [.all()] *)

Definition count {A} (rows : list A) : Z := Z.of_nat (length rows).

Definition first {A} (rows : list A) : option A :=
  match rows with
  | [] => None
  | r :: _ => Some r
  end.

Definition all {A} (rows : list A) : list A := rows.

(** An INTEGER PRIMARY KEY column: the store assigns 1 in an empty table
    and one more than the largest id in any other.  (Past 2^63 - 1 SQLite
    draws an unused id at random; that case is not covered.) *)
Definition next_id (ids : list Z) : Z :=
  match ids with
  | [] => 1
  | i :: rest => 1 + fold_right Z.max i rest
  end.

(** ** The password context ([pwd_context]) *)

(** bcrypt itself, on a secret that passed the checks passlib makes
    first ([validate_secret] below).  [hash] draws a random salt; the draw
    is its first argument. *)
Class CryptContext := {
  hash : string -> string -> string;
  verify : string -> string -> bool
}.

(** ** The database engine's [ORDER BY created_at DESC] *)

Class QueryEngine := {
  order_by_created_at_desc : list Post.t -> list Post.t
}.

(** [p] may come before [q] in a descending listing. *)
Definition newer_or_same (p q : Post.t) : Prop :=
  Post.created_at q <= Post.created_at p.

(** What SQL promises of ORDER BY with a single key: the rows are the same,
    and the key never increases.  The order of rows with equal keys is the
    engine's own. *)
Class QueryEngineLaws (E : QueryEngine) : Prop := {
  order_by_permutation :
    forall rows, Permutation rows (order_by_created_at_desc rows);
  order_by_sorted :
    forall rows, StronglySorted newer_or_same (order_by_created_at_desc rows)
}.

(** Two engines.  [stable_engine] keeps rows with equal keys in scan order,
    [reversing_engine] turns them round. *)
Fixpoint insert_desc (p : Post.t) (sorted : list Post.t) : list Post.t :=
  match sorted with
  | [] => [p]
  | q :: rest =>
      if Post.created_at q <? Post.created_at p
      then p :: q :: rest
      else q :: insert_desc p rest
  end.

Definition stable_sort_desc (rows : list Post.t) : list Post.t :=
  fold_left (fun acc p => insert_desc p acc) rows [].

Definition stable_engine : QueryEngine :=
  {| order_by_created_at_desc := stable_sort_desc |}.

Definition reversing_engine : QueryEngine :=
  {| order_by_created_at_desc := fun rows => stable_sort_desc (rev rows) |}.

(** A password context to run the handlers on concrete inputs. *)
Definition toy_context : CryptContext :=
  {| hash := fun salt password => (salt ++ "$" ++ password)%string;
     verify := fun password hashed =>
       match index 0 "$" hashed with
       | Some n => String.eqb (substring (S n) (String.length hashed) hashed) password
       | None => false
       end |}.

(** ** [os.path.splitext(p)[1]] (POSIX) *)

(** [str.rfind] of a one-character pattern: the last position holding [c],
    [-1] when there is none. *)
Fixpoint rfind_from (c : ascii) (s : string) (i : Z) (found : Z) : Z :=
  match s with
  | EmptyString => found
  | String a rest => rfind_from c rest (i + 1) (if Ascii.eqb a c then i else found)
  end.

Definition rfind (c : ascii) (s : string) : Z := rfind_from c s 0 (-1).

(** The [while] loop that skips the leading dots of the file name: is there
    a character other than [.] at a position in [[i, i + fuel)]? *)
Fixpoint has_non_dot (p : string) (i : Z) (fuel : nat) : bool :=
  match fuel with
  | O => false
  | S fuel' =>
      match get (Z.to_nat i) p with
      | Some a => if Ascii.eqb a "."%char then has_non_dot p (i + 1) fuel' else true
      | None => true
      end
  end.

Definition splitext_ext (p : string) : string :=
  let sepIndex := rfind "/"%char p in
  let dotIndex := rfind "."%char p in
  if (sepIndex <? dotIndex) &&
     has_non_dot p (sepIndex + 1) (Z.to_nat (dotIndex - (sepIndex + 1)))
  then substring (Z.to_nat dotIndex) (String.length p) p
  else "".

(** ** Requests, responses, exceptions *)

(** A request, as far as the handlers read it: its cookies.  The same
    association list is the browser's cookie jar. *)
Record Request := { cookies : list (string * string) }.

Fixpoint cookies_get (key : string) (jar : list (string * string)) : option string :=
  match jar with
  | [] => None
  | (k, v) :: rest => if String.eqb k key then Some v else cookies_get key rest
  end.

Inductive CookieOp :=
| SetCookie (key value : string)
| DeleteCookie (key : string).

Inductive Value :=
| VRequest (r : Request)
| VUser (u : option User.t)
| VUsers (l : list User.t)
| VPosts (l : list Post.t).

Inductive Body :=
| TemplateResponse (name : string) (context : list (string * Value))
| RedirectResponse (url : string) (status_code : Z).

Record Response := { body : Body; cookie_ops : list CookieOp }.

Definition respond (b : Body) : Response := {| body := b; cookie_ops := [] |}.

(** The response with one more [Set-Cookie] header. *)
Definition with_cookie (key value : string) (r : Response) : Response :=
  {| body := body r; cookie_ops := cookie_ops r ++ [SetCookie key value] |}.

(** [response.delete_cookie(key)]: a [Set-Cookie] with the empty value
    and [max-age=0], which always encodes. *)
Definition delete_cookie (key : string) (r : Response) : Response :=
  {| body := body r; cookie_ops := cookie_ops r ++ [DeleteCookie key] |}.

Definition HTTP_303_SEE_OTHER : Z := 303.

Inductive Exception :=
| HTTPException (status_code : Z) (detail : string)
| OSError (filename : string)
| ValueError (message : string)
| UnicodeEncodeError (object : string)
| PasswordSizeError
| PasswordValueError
| IntegrityError (column : string).

Inductive Outcome (A : Type) :=
| Return (a : A)
| Raise (e : Exception).
Arguments Return {A} a.
Arguments Raise {A} e.

(** The browser applies the cookie operations of a response to its jar. *)
Fixpoint jar_remove (key : string) (jar : list (string * string)) : list (string * string) :=
  match jar with
  | [] => []
  | (k, v) :: rest =>
      if String.eqb k key then jar_remove key rest else (k, v) :: jar_remove key rest
  end.

Definition apply_cookie_op (jar : list (string * string)) (op : CookieOp) : list (string * string) :=
  match op with
  | SetCookie k v => (k, v) :: jar_remove k jar
  | DeleteCookie k => jar_remove k jar
  end.

Definition browser_receive (jar : list (string * string)) (r : Response) : list (string * string) :=
  fold_left apply_cookie_op (cookie_ops r) jar.

(** ** Text, and the library calls that refuse some of it *)

(** A [str] is held as its UTF-8 bytes.  [has_nul]: it holds U+0000. *)
Fixpoint has_nul (s : string) : bool :=
  match s with
  | EmptyString => false
  | String c rest => Ascii.eqb c "000"%char || has_nul rest
  end.

(** [len(s)]: the bytes that start a character (all but 0x80..0xBF). *)
Fixpoint code_points (s : string) : Z :=
  match s with
  | EmptyString => 0
  | String c rest =>
      let b := Z.of_nat (nat_of_ascii c) in
      (if (128 <=? b) && (b <=? 191) then 0 else 1) + code_points rest
  end.

(** [s.encode("latin-1")] goes through: no character is above U+00FF,
    that is, no byte is 0xC4 or more. *)
Fixpoint latin1_encodable (s : string) : bool :=
  match s with
  | EmptyString => true
  | String c rest => (Z.of_nat (nat_of_ascii c) <? 196) && latin1_encodable rest
  end.

Definition MAX_PASSWORD_SIZE : Z := 4096.

(** What passlib checks of a secret before bcrypt sees it, in its order:
    the size, then the NUL. *)
Definition validate_secret (secret : string) : Outcome unit :=
  if MAX_PASSWORD_SIZE <? code_points secret then Raise PasswordSizeError
  else if has_nul secret then Raise PasswordValueError
  else Return tt.

(** [pwd_context.hash(secret)] *)
Definition pwd_context_hash `{CryptContext} (salt secret : string) : Outcome string :=
  match validate_secret secret with
  | Return _ => Return (hash salt secret)
  | Raise e => Raise e
  end.

(** [pwd_context.verify(secret, hashed)] *)
Definition pwd_context_verify `{CryptContext} (secret hashed : string) : Outcome bool :=
  match validate_secret secret with
  | Return _ => Return (verify secret hashed)
  | Raise e => Raise e
  end.

(** [User.verify_password] *)
Definition verify_password `{CryptContext} (self : User.t) (password : string)
  : Outcome bool :=
  pwd_context_verify password (User.hashed_password self).

(** [response.set_cookie(key, value)]: the header is encoded as latin-1. *)
Definition set_cookie (key value : string) (r : Response) : Outcome Response :=
  if latin1_encodable value then Return (with_cookie key value r)
  else Raise (UnicodeEncodeError value).

(** What [open(path, "wb")] raises when it fails. *)
Definition open_error (path : string) : Exception :=
  if has_nul path then ValueError "embedded null byte" else OSError path.

(** ** The world: database, upload area, trace of side effects *)

(** [open_ok] and [write_ok] say which [open(path, "wb")] and which
    [file.write(data)] succeed (permissions, free space); no file system
    opens a path that holds a NUL. *)
Record FileSystem := {
  files : list (string * string);
  open_ok : string -> bool;
  write_ok : string -> string -> bool;
  open_ok_nul : forall path, has_nul path = true -> open_ok path = false
}.

Inductive Event :=
| FileOpened (path : string)
| FileWritten (path : string) (data : string)
| UserCommitted (u : User.t)
| PostCommitted (p : Post.t)
| Printed (line : string).

Record World := {
  db : Database;
  fs : FileSystem;
  trace : list Event
}.

Definition M (A : Type) : Type := World -> Outcome A * World.

Definition ret {A} (a : A) : M A := fun w => (Return a, w).

Definition raise {A} (e : Exception) : M A := fun w => (Raise e, w).

(** A library call that returns or raises and touches nothing. *)
Definition lift {A} (o : Outcome A) : M A := fun w => (o, w).

Definition bind {A B} (m : M A) (k : A -> M B) : M B :=
  fun w =>
    match m w with
    | (Return a, w') => k a w'
    | (Raise e, w') => (Raise e, w')
    end.

Notation "x <- m ;; k" := (bind m (fun x => k))
  (at level 61, m at next level, right associativity).
Notation "m ;; k" := (bind m (fun _ => k))
  (at level 61, right associativity).

Definition get_db : M Database := fun w => (Return (db w), w).

Definition emit (e : Event) : M unit :=
  fun w => (Return tt, {| db := db w; fs := fs w; trace := trace w ++ [e] |}).

(** ** Writes *)

(** [db.add(User(...)); db.commit()].  Both [username] and [email] are
    declared [unique=True]: the INSERT is refused when either value is
    already in the table.  The store assigns the id. *)
Definition add_commit_user (username email hashed_password : string) (is_admin : bool)
  : M User.t :=
  fun w =>
    let rows := users (db w) in
    if existsb (fun u => String.eqb (User.username u) username) rows
    then (Raise (IntegrityError "users.username"), w)
    else if existsb (fun u => String.eqb (User.email u) email) rows
    then (Raise (IntegrityError "users.email"), w)
    else
      let row := User.mk (next_id (map User.id rows)) username email hashed_password is_admin in
      (Return row,
       {| db := {| users := rows ++ [row]; posts := posts (db w) |};
          fs := fs w;
          trace := trace w ++ [UserCommitted row] |}).

(** [db.add(Post(...)); db.commit()].  [created_at] defaults to
    [datetime.now], read when the row is written: [now] is that reading. *)
Definition add_commit_post (content : string) (image_path : option string)
  (user_id : Z) (now : Z) : M Post.t :=
  fun w =>
    let rows := posts (db w) in
    let row := Post.mk (next_id (map Post.id rows)) content image_path now user_id in
    (Return row,
     {| db := {| users := users (db w); posts := rows ++ [row] |};
        fs := fs w;
        trace := trace w ++ [PostCommitted row] |}).

Fixpoint files_put (path data : string) (l : list (string * string)) : list (string * string) :=
  match l with
  | [] => [(path, data)]
  | (p, d) :: rest =>
      if String.eqb p path then (path, data) :: rest else (p, d) :: files_put path data rest
  end.

(** [open(path, "wb")]: creates the file, or truncates it. *)
Definition open_wb (path : string) : M unit :=
  fun w =>
    if open_ok (fs w) path
    then (Return tt,
          {| db := db w;
             fs := {| files := files_put path "" (files (fs w));
                      open_ok := open_ok (fs w);
                      write_ok := write_ok (fs w);
                      open_ok_nul := open_ok_nul (fs w) |};
             trace := trace w ++ [FileOpened path] |})
    else (Raise (open_error path), w).

(** [file.write(data)] on a file opened by [open_wb]. *)
Definition file_write (path data : string) : M unit :=
  fun w =>
    if write_ok (fs w) path data
    then (Return tt,
          {| db := db w;
             fs := {| files := files_put path data (files (fs w));
                      open_ok := open_ok (fs w);
                      write_ok := write_ok (fs w);
                      open_ok_nul := open_ok_nul (fs w) |};
             trace := trace w ++ [FileWritten path data] |})
    else (Raise (OSError path), w).

(** ** Handlers *)

Record UploadFile := { filename : option string; file_data : string }.

Definition UPLOAD_DIR : string := "static/uploads".

Section Handlers.
Context {pwd_context : CryptContext} {engine : QueryEngine}.

(** [create_superuser]; [salt] is the draw of [pwd_context.hash]. *)
Definition create_superuser (salt : string) : M unit :=
  d <- get_db ;;
  let user_count := count (users d) in
  if user_count =? 0 then
    hashed_password <- lift (pwd_context_hash salt "admin") ;;
    admin_user <- add_commit_user "admin" "admin@example.com" hashed_password true ;;
    emit (Printed "Admin user created: admin / admin")
  else ret tt.

(** [lifespan], up to its [yield]: what runs before the first request. *)
Definition lifespan_startup (salt : string) : M unit := create_superuser salt.

Definition get_current_user (request : Request) : M (option User.t) :=
  let username := cookies_get "username" (cookies request) in
  match username with
  | None => ret None
  | Some name =>
      if String.eqb name "" then ret None
      else
        d <- get_db ;;
        let user := first (filter (fun u => String.eqb (User.username u) name) (users d)) in
        ret user
  end.

Definition home (request : Request) (current_user : option User.t) : M Response :=
  ret (respond (TemplateResponse "index.html"
         [("request", VRequest request); ("user", VUser current_user)])).

Definition register_page (request : Request) : M Response :=
  ret (respond (TemplateResponse "register.html" [("request", VRequest request)])).

(** [register_user]; [salt] is the draw of [pwd_context.hash]. *)
Definition register_user (salt : string) (username password email : string) : M Response :=
  d <- get_db ;;
  let existing_user :=
    first (filter (fun u => String.eqb (User.username u) username
                            || String.eqb (User.email u) email) (users d)) in
  match existing_user with
  | Some _ => raise (HTTPException 400 "Username or email already registered")
  | None =>
      hashed_password <- lift (pwd_context_hash salt password) ;;
      let is_admin := false in
      d' <- get_db ;;
      let is_admin := if count (users d') =? 0 then true else is_admin in
      new_user <- add_commit_user username email hashed_password is_admin ;;
      let response := respond (RedirectResponse "/login" HTTP_303_SEE_OTHER) in
      ret response
  end.

Definition login_page (request : Request) : M Response :=
  ret (respond (TemplateResponse "login.html" [("request", VRequest request)])).

Definition login (username password : string) : M Response :=
  d <- get_db ;;
  let user := first (filter (fun u => String.eqb (User.username u) username) (users d)) in
  match user with
  | None => raise (HTTPException 401 "Invalid username or password")
  | Some u =>
      verified <- lift (verify_password u password) ;;
      if negb verified
      then raise (HTTPException 401 "Invalid username or password")
      else
        let response := respond (RedirectResponse "/dashboard" HTTP_303_SEE_OTHER) in
        response <- lift (set_cookie "username" (User.username u) response) ;;
        ret response
  end.

Definition logout : M Response :=
  let response := respond (RedirectResponse "/" HTTP_303_SEE_OTHER) in
  let response := delete_cookie "username" response in
  ret response.

Definition dashboard (request : Request) (current_user : option User.t) : M Response :=
  match current_user with
  | None => ret (respond (RedirectResponse "/login" HTTP_303_SEE_OTHER))
  | Some u =>
      ret (respond (TemplateResponse "dashboard.html"
             [("request", VRequest request); ("user", VUser (Some u))]))
  end.

(** [create_post]; [uuid] is the draw of [uuid.uuid4()], [now] the clock
    when the row is written. *)
Definition create_post (uuid : string) (now : Z) (request : Request) (content : string)
  (image : option UploadFile) (current_user : option User.t) : M Response :=
  match current_user with
  | None => ret (respond (RedirectResponse "/login" HTTP_303_SEE_OTHER))
  | Some u =>
      image_path <-
        match image with
        | Some {| filename := Some name; file_data := data |} =>
            if String.eqb name "" then ret None
            else
              let file_extension := splitext_ext name in
              let unique_filename := (uuid ++ file_extension)%string in
              let image_path := (UPLOAD_DIR ++ "/" ++ unique_filename)%string in
              open_wb image_path ;;
              file_write image_path data ;;
              ret (Some ("uploads/" ++ unique_filename)%string)
        | _ => ret None
        end ;;
      new_post <- add_commit_post content image_path (User.id u) now ;;
      ret (respond (RedirectResponse "/dashboard" HTTP_303_SEE_OTHER))
  end.

Definition user_profile (request : Request) (username : string)
  (current_user : option User.t) : M Response :=
  d <- get_db ;;
  let profile_user :=
    first (filter (fun u => String.eqb (User.username u) username) (users d)) in
  match profile_user with
  | None => raise (HTTPException 404 "User not found")
  | Some pu =>
      let posts :=
        all (order_by_created_at_desc
               (filter (fun p => Post.user_id p =? User.id pu) (posts d))) in
      ret (respond (TemplateResponse "profile.html"
             [("request", VRequest request); ("profile_user", VUser (Some pu));
              ("posts", VPosts posts); ("user", VUser current_user)]))
  end.

Definition admin_dashboard (request : Request) (current_user : option User.t) : M Response :=
  match current_user with
  | None => raise (HTTPException 403 "Not authorized")
  | Some u =>
      if negb (User.is_admin u) then raise (HTTPException 403 "Not authorized")
      else
        d <- get_db ;;
        let users := all (users d) in
        let posts := all (order_by_created_at_desc (posts d)) in
        ret (respond (TemplateResponse "admin.html"
               [("request", VRequest request); ("users", VUsers users);
                ("posts", VPosts posts); ("user", VUser (Some u))]))
  end.

(** ** Routes: a handler behind its [Depends(get_current_user)] *)

Definition GET_home (request : Request) : M Response :=
  current_user <- get_current_user request ;; home request current_user.

Definition GET_dashboard (request : Request) : M Response :=
  current_user <- get_current_user request ;; dashboard request current_user.

Definition POST_post (uuid : string) (now : Z) (request : Request) (content : string)
  (image : option UploadFile) : M Response :=
  current_user <- get_current_user request ;;
  create_post uuid now request content image current_user.

Definition GET_profile (request : Request) (username : string) : M Response :=
  current_user <- get_current_user request ;; user_profile request username current_user.

Definition GET_admin (request : Request) : M Response :=
  current_user <- get_current_user request ;; admin_dashboard request current_user.

End Handlers.

(** ** Runs of registration requests *)

Record Registration := {
  reg_salt : string;
  reg_username : string;
  reg_password : string;
  reg_email : string
}.

Definition register `{CryptContext} (r : Registration) : M Response :=
  register_user (reg_salt r) (reg_username r) (reg_password r) (reg_email r).

Definition succeeded {A} (o : Outcome A) : bool :=
  match o with Return _ => true | Raise _ => false end.

(** The world after serving the requests one after another. *)
Fixpoint run_registrations `{CryptContext} (rs : list Registration) (w : World) : World :=
  match rs with
  | [] => w
  | r :: rest => run_registrations rest (snd (register r w))
  end.

(** How many of the requests were answered without an exception. *)
Fixpoint successes `{CryptContext} (rs : list Registration) (w : World) : nat :=
  match rs with
  | [] => O
  | r :: rest =>
      ((if succeeded (fst (register r w)) then 1 else 0)
       + successes rest (snd (register r w)))%nat
  end.

(** ** Runs of the application *)

(** One HTTP request to a route of [app], with the random draws and the
    clock reading its handler uses. *)
Inductive HttpRequest :=
| GetHome (request : Request)
| GetRegister (request : Request)
| PostRegister (salt username password email : string)
| GetLogin (request : Request)
| PostLogin (username password : string)
| GetLogout
| GetDashboard (request : Request)
| PostPost (uuid : string) (now : Z) (request : Request) (content : string)
           (image : option UploadFile)
| GetProfile (request : Request) (username : string)
| GetAdmin (request : Request).

Definition serve `{CryptContext} `{QueryEngine} (r : HttpRequest) : M Response :=
  match r with
  | GetHome request => GET_home request
  | GetRegister request => register_page request
  | PostRegister salt username password email => register_user salt username password email
  | GetLogin request => login_page request
  | PostLogin username password => login username password
  | GetLogout => logout
  | GetDashboard request => GET_dashboard request
  | PostPost uuid now request content image => POST_post uuid now request content image
  | GetProfile request username => GET_profile request username
  | GetAdmin request => GET_admin request
  end.

(** The world after the requests have been served one after another; an
    exception ends its request, not the run. *)
Fixpoint run `{CryptContext} `{QueryEngine} (rs : list HttpRequest) (w : World) : World :=
  match rs with
  | [] => w
  | r :: rest => run rest (snd (serve r w))
  end.

Definition no_faults : FileSystem :=
  {| files := [];
     open_ok := fun path => negb (has_nul path);
     write_ok := fun _ _ => true;
     open_ok_nul := fun path (H : has_nul path = true) => f_equal negb H |}.

Definition empty_world : World :=
  {| db := empty_database; fs := no_faults; trace := [] |}.

(** ** Names used by the statements *)

Definition DuplicateIdentity : Exception :=
  HTTPException 400 "Username or email already registered".
Definition InvalidCredentials : Exception :=
  HTTPException 401 "Invalid username or password".
Definition Forbidden : Exception := HTTPException 403 "Not authorized".
Definition NotFound : Exception := HTTPException 404 "User not found".

Definition redirect_to (url : string) : Response :=
  respond (RedirectResponse url HTTP_303_SEE_OTHER).

(** The page [user_profile] hands to the template. *)
Definition profile_page (request : Request) (pu : User.t) (listed : list Post.t)
  (viewer : option User.t) : Response :=
  respond (TemplateResponse "profile.html"
    [("request", VRequest request); ("profile_user", VUser (Some pu));
     ("posts", VPosts listed); ("user", VUser viewer)]).

(** The row of [rows] that holds the user name [name]: the first one in
    rowid order, should the table hold several. *)
Definition stored_user (rows : list User.t) (name : string) (u : User.t) : Prop :=
  exists older newer,
    rows = older ++ u :: newer
    /\ User.username u = name
    /\ Forall (fun v => User.username v <> name) older.

Definition unique_identities (rows : list User.t) : Prop :=
  NoDup (map User.username rows) /\ NoDup (map User.email rows).

Definition owned_by (u : User.t) (p : Post.t) : bool := Post.user_id p =? User.id u.

(** The row a registration writes when it goes through. *)
Definition registered_row `{CryptContext} (salt username password email : string)
  (w : World) : User.t :=
  User.mk (next_id (map User.id (users (db w)))) username email (hash salt password)
          (match users (db w) with [] => true | _ :: _ => false end).

(** The filter of [register_user]'s duplicate check. *)
Definition collides (username email : string) (u : User.t) : bool :=
  String.eqb (User.username u) username || String.eqb (User.email u) email.

(** ** Sample data: the scenario of two users, Alice first *)

Definition alice : Registration :=
  {| reg_salt := "s1"; reg_username := "alice"; reg_password := "pw1";
     reg_email := "a@x.com" |}.

Definition bob : Registration :=
  {| reg_salt := "s2"; reg_username := "bob"; reg_password := "pw2";
     reg_email := "b@x.com" |}.

Definition alice_and_bob : World :=
  run_registrations (H := toy_context) [alice; bob] empty_world.

Definition request_as (name : string) : Request :=
  {| cookies := [("username", name)] |}.

Definition anonymous : Request := {| cookies := [] |}.

(** Bob posts twice, at the clock readings [t1] and then [t2]. *)
Definition posted_twice (t1 t2 : Z) : World :=
  let w1 := snd (POST_post "u-1" t1 (request_as "bob") "first" None alice_and_bob) in
  snd (POST_post "u-2" t2 (request_as "bob") "second" None w1).

Definition first_post (t : Z) : Post.t := Post.mk 1 "first" None t 2.
Definition second_post (t : Z) : Post.t := Post.mk 2 "second" None t 2.

Definition bob_row : User.t := User.mk 2 "bob" "b@x.com" "s2$pw2" false.
Definition alice_row : User.t := User.mk 1 "alice" "a@x.com" "s1$pw1" true.

(** An upload area on a full disk: files open, writes fail. *)
Definition full_disk : FileSystem :=
  {| files := [];
     open_ok := fun path => negb (has_nul path);
     write_ok := fun _ _ => false;
     open_ok_nul := fun path (H : has_nul path = true) => f_equal negb H |}.

Definition cat_picture : UploadFile :=
  {| filename := Some "cat.png"; file_data := "PNG" |}.

(** ** Vocabulary of the further properties *)

(** Reading a file of the upload area back. *)
Fixpoint files_get (path : string) (l : list (string * string)) : option string :=
  match l with
  | [] => None
  | (p, d) :: rest => if String.eqb p path then Some d else files_get path rest
  end.

(** The routes whose handler calls [db.commit()] or opens a file. *)
Definition writes (r : HttpRequest) : bool :=
  match r with
  | PostRegister _ _ _ _ => true
  | PostPost _ _ _ _ _ => true
  | _ => false
  end.

(** The exceptions a route can end in: its own [HTTPException], and what
    the library calls of its handler raise (passlib on the password, the
    cookie header on the user name, [open] and [write] on the upload). *)
Definition may_raise (r : HttpRequest) (e : Exception) : Prop :=
  match r with
  | PostRegister _ _ password _ =>
      e = DuplicateIdentity \/ validate_secret password = Raise e
  | PostLogin username password =>
      e = InvalidCredentials
      \/ validate_secret password = Raise e
      \/ (latin1_encodable username = false /\ e = UnicodeEncodeError username)
  | GetProfile _ _ => e = NotFound
  | GetAdmin _ => e = Forbidden
  | PostPost uuid _ _ _ (Some {| filename := Some name |}) =>
      e = open_error (UPLOAD_DIR ++ "/" ++ uuid ++ splitext_ext name)%string
  | _ => False
  end.

(** Every Post points at a row of [users]. *)
Definition posts_have_authors (d : Database) : Prop :=
  Forall (fun p => exists u, In u (users d) /\ User.id u = Post.user_id p) (posts d).

(** No row is an admin. *)
Definition no_admin (rows : list User.t) : Prop :=
  Forall (fun u => User.is_admin u = false) rows.

(** The character [c] does not occur in [s]. *)
Definition char_free (c : ascii) (s : string) : Prop :=
  forall k, get k s <> Some c.

(** What [Depends(get_current_user)] hands to a handler. *)
Definition resolved_identity (request : Request) (w : World) : option User.t :=
  match cookies_get "username" (cookies request) with
  | None => None
  | Some name =>
      if String.eqb name "" then None
      else first (filter (fun u => String.eqb (User.username u) name) (users (db w)))
  end.

(** The page [dashboard] hands to the template. *)
Definition dashboard_page (request : Request) (u : User.t) : Response :=
  respond (TemplateResponse "dashboard.html"
             [("request", VRequest request); ("user", VUser (Some u))]).

(** * Properties *)

(** ** Query results *)

Lemma first_filter_none {A} (f : A -> bool) (l : list A) :
  first (filter f l) = None <-> forall x, In x l -> f x = false.
Proof.
  induction l as [|a l IH]; simpl.
  - split; [intros _ x [] | reflexivity].
  - destruct (f a) eqn:Fa; simpl.
    + split; [discriminate|]. intros H. rewrite (H a) in Fa by now left. discriminate.
    + rewrite IH. split.
      * intros H x [<-|Hx]; auto.
      * intros H x Hx. apply H. now right.
Qed.

Lemma first_filter_some {A} (f : A -> bool) (l : list A) (x : A) :
  first (filter f l) = Some x <->
  exists older newer, l = older ++ x :: newer /\ f x = true
                      /\ Forall (fun y => f y = false) older.
Proof.
  induction l as [|a l IH]; simpl.
  - split; [discriminate|]. intros (o & n & H & _). destruct o; discriminate.
  - destruct (f a) eqn:Fa; simpl.
    + split.
      * intros [= <-]. exists [], l. repeat split; auto.
      * intros (o & n & H & Fx & Ho). destruct o as [|b o]; simpl in H.
        -- now injection H as -> _.
        -- injection H as -> _. inversion Ho; subst. congruence.
    + rewrite IH. split.
      * intros (o & n & -> & Fx & Ho). exists (a :: o), n. repeat split; auto.
      * intros (o & n & H & Fx & Ho). destruct o as [|b o]; simpl in H.
        -- injection H as -> _. congruence.
        -- injection H as -> ->. inversion Ho; subst. now exists o, n.
Qed.

Lemma first_filter_existsb {A} (f : A -> bool) (l : list A) :
  existsb f l = match first (filter f l) with Some _ => true | None => false end.
Proof.
  induction l as [|a l IH]; simpl; [reflexivity|].
  destruct (f a); simpl; [reflexivity | exact IH].
Qed.

Lemma first_by_username (rows : list User.t) (name : string) (u : User.t) :
  first (filter (fun v => String.eqb (User.username v) name) rows) = Some u
  <-> stored_user rows name u.
Proof.
  rewrite first_filter_some. unfold stored_user.
  split; intros (o & n & -> & Hu & Ho); exists o, n; repeat split.
  - now apply String.eqb_eq.
  - eapply Forall_impl; [|exact Ho]. simpl. intros v Hv. now apply String.eqb_neq.
  - now apply String.eqb_eq.
  - eapply Forall_impl; [|exact Ho]. simpl. intros v Hv. now apply String.eqb_neq.
Qed.

Lemma first_by_username_none (rows : list User.t) (name : string) :
  first (filter (fun v => String.eqb (User.username v) name) rows) = None
  <-> forall u, In u rows -> User.username u <> name.
Proof.
  rewrite first_filter_none. split; intros H u Hu.
  - apply String.eqb_neq. now apply H.
  - apply String.eqb_neq. now apply H.
Qed.

Lemma stored_user_in (rows : list User.t) (name : string) (u : User.t) :
  stored_user rows name u -> In u rows /\ User.username u = name.
Proof.
  intros (o & n & -> & Hu & _). split; [|exact Hu].
  apply in_or_app. right. now left.
Qed.

(** Under the [unique=True] constraint the stored user is the only row with
    that name. *)
Lemma stored_user_unique (rows : list User.t) (name : string) (u : User.t) :
  NoDup (map User.username rows) ->
  In u rows -> User.username u = name -> stored_user rows name u.
Proof.
  intros ND Hin Hname.
  destruct (in_split _ _ Hin) as (o & n & ->).
  exists o, n. repeat split; auto.
  rewrite map_app in ND. simpl in ND.
  apply NoDup_remove_2 in ND.
  apply Forall_forall. intros v Hv E.
  apply ND. apply in_or_app. left.
  rewrite Hname, <- E. now apply in_map.
Qed.

Lemma count_zero {A} (l : list A) : (count l =? 0) = match l with [] => true | _ => false end.
Proof.
  destruct l; [reflexivity|]. unfold count. simpl length.
  apply Z.eqb_neq. lia.
Qed.

(** ** The two engines keep the ORDER BY contract *)

Lemma insert_desc_permutation (p : Post.t) (l : list Post.t) :
  Permutation (p :: l) (insert_desc p l).
Proof.
  induction l as [|q l IH]; simpl; [apply Permutation_refl|].
  destruct (Post.created_at q <? Post.created_at p).
  - apply Permutation_refl.
  - eapply perm_trans; [apply perm_swap|]. now apply perm_skip.
Qed.

Lemma insert_desc_sorted (p : Post.t) (l : list Post.t) :
  StronglySorted newer_or_same l -> StronglySorted newer_or_same (insert_desc p l).
Proof.
  induction 1 as [|q l Hl IH Hq]; simpl.
  - constructor; constructor.
  - destruct (Post.created_at q <? Post.created_at p) eqn:C.
    + apply Z.ltb_lt in C. constructor; [now constructor|].
      constructor; [unfold newer_or_same; lia|].
      eapply Forall_impl; [|exact Hq]. unfold newer_or_same. intros; lia.
    + apply Z.ltb_ge in C. constructor; [exact IH|].
      eapply Permutation_Forall; [apply insert_desc_permutation|].
      constructor; [exact C | exact Hq].
Qed.

Lemma fold_insert_permutation (rows acc : list Post.t) :
  Permutation (rows ++ acc) (fold_left (fun a p => insert_desc p a) rows acc).
Proof.
  revert acc. induction rows as [|p rows IH]; intros acc; simpl.
  - apply Permutation_refl.
  - eapply perm_trans; [|apply IH].
    eapply perm_trans; [apply Permutation_middle|].
    apply Permutation_app_head. apply insert_desc_permutation.
Qed.

Lemma fold_insert_sorted (rows acc : list Post.t) :
  StronglySorted newer_or_same acc ->
  StronglySorted newer_or_same (fold_left (fun a p => insert_desc p a) rows acc).
Proof.
  revert acc. induction rows as [|p rows IH]; intros acc H; simpl; [exact H|].
  apply IH. now apply insert_desc_sorted.
Qed.

Lemma stable_sort_desc_permutation (rows : list Post.t) :
  Permutation rows (stable_sort_desc rows).
Proof.
  unfold stable_sort_desc.
  eapply perm_trans; [|apply fold_insert_permutation]. now rewrite app_nil_r.
Qed.

Lemma stable_sort_desc_sorted (rows : list Post.t) :
  StronglySorted newer_or_same (stable_sort_desc rows).
Proof. apply fold_insert_sorted. constructor. Qed.

Lemma stable_engine_laws : QueryEngineLaws stable_engine.
Proof.
  constructor; simpl.
  - apply stable_sort_desc_permutation.
  - apply stable_sort_desc_sorted.
Qed.

Lemma reversing_engine_laws : QueryEngineLaws reversing_engine.
Proof.
  constructor; simpl; intros rows.
  - eapply perm_trans; [apply Permutation_rev|]. apply stable_sort_desc_permutation.
  - apply stable_sort_desc_sorted.
Qed.

(** ** Registration *)

Section Registration.
Context {pwd_context : CryptContext}.

(** [register_user] in closed form: it raises the 400 and leaves the
    world as it was, or passlib refuses the password and the world is as
    it was, or it appends one row. *)
Lemma register_user_cases (salt username password email : string) (w : World) :
  register_user salt username password email w =
  if existsb (collides username email) (users (db w))
  then (Raise DuplicateIdentity, w)
  else
    match validate_secret password with
    | Raise e => (Raise e, w)
    | Return _ =>
        let row := registered_row salt username password email w in
        (Return (redirect_to "/login"),
         {| db := {| users := users (db w) ++ [row]; posts := posts (db w) |};
            fs := fs w;
            trace := trace w ++ [UserCommitted row] |})
    end.
Proof.
  unfold register_user, bind, get_db, raise, ret, lift, pwd_context_hash.
  rewrite (first_filter_existsb (collides username email)).
  unfold collides.
  destruct (first (filter _ (users (db w)))) as [u|] eqn:F; [reflexivity|].
  pose proof (proj1 (first_filter_none _ _) F) as N.
  unfold add_commit_user.
  assert (Hn : existsb (fun u => String.eqb (User.username u) username) (users (db w)) = false).
  { apply not_true_is_false. intros H.
    apply existsb_exists in H. destruct H as (v & Hin & Hv).
    apply N in Hin. rewrite Hv in Hin. discriminate. }
  assert (He : existsb (fun u => String.eqb (User.email u) email) (users (db w)) = false).
  { apply not_true_is_false. intros H.
    apply existsb_exists in H. destruct H as (v & Hin & Hv).
    apply N in Hin. rewrite Hv, orb_true_r in Hin. discriminate. }
  destruct (validate_secret password); [|reflexivity].
  rewrite Hn, He, count_zero. unfold registered_row, redirect_to.
  destruct (users (db w)); reflexivity.
Qed.

Lemma validate_secret_raises (secret : string) (e : Exception) :
  validate_secret secret = Raise e -> e = PasswordSizeError \/ e = PasswordValueError.
Proof.
  unfold validate_secret.
  destruct (MAX_PASSWORD_SIZE <? code_points secret); [intros [= <-]; now left|].
  destruct (has_nul secret); [intros [= <-]; now right | discriminate].
Qed.

(** The unique constraints of the table are never what stops a
    registration: the handler's own check comes first. *)
Lemma register_user_no_integrity_error (salt username password email : string)
  (w : World) (column : string) :
  fst (register_user salt username password email w) <> Raise (IntegrityError column).
Proof.
  rewrite register_user_cases.
  destruct (existsb _ _); simpl; [discriminate|].
  destruct (validate_secret password) as [[]|e] eqn:V; simpl; [discriminate|].
  apply validate_secret_raises in V. destruct V as [-> | ->]; discriminate.
Qed.

Lemma register_users_grow (r : Registration) (w : World) :
  users (db (snd (register r w))) =
  if succeeded (fst (register r w))
  then users (db w) ++
       [registered_row (reg_salt r) (reg_username r) (reg_password r) (reg_email r) w]
  else users (db w).
Proof.
  unfold register. rewrite register_user_cases.
  destruct (existsb _ _); [reflexivity|].
  destruct (validate_secret _); reflexivity.
Qed.

Lemma run_registrations_length (rs : list Registration) (w : World) :
  length (users (db (run_registrations rs w))) =
  (length (users (db w)) + successes rs w)%nat.
Proof.
  revert w. induction rs as [|r rs IH]; intros w; simpl; [lia|].
  rewrite IH, register_users_grow.
  destruct (succeeded _); [rewrite length_app; simpl|]; lia.
Qed.

Lemma run_registrations_keeps_users (rs : list Registration) (w : World) :
  exists added, users (db (run_registrations rs w)) = users (db w) ++ added.
Proof.
  revert w. induction rs as [|r rs IH]; intros w; simpl.
  - exists []. now rewrite app_nil_r.
  - destruct (IH (snd (register r w))) as (added & ->).
    rewrite register_users_grow. destruct (succeeded _).
    + eexists. now rewrite <- app_assoc.
    + now exists added.
Qed.

Lemma NoDup_snoc {A} (l : list A) (x : A) :
  NoDup l -> ~ In x l -> NoDup (l ++ [x]).
Proof.
  intros ND NI.
  eapply Permutation_NoDup; [apply Permutation_cons_append|].
  now constructor.
Qed.

(** The [unique=True] constraints hold in every store that registrations
    build: user names and emails stay pairwise different. *)
Lemma register_keeps_unique_identities (r : Registration) (w : World) :
  unique_identities (users (db w)) ->
  unique_identities (users (db (snd (register r w)))).
Proof.
  intros [Hn He]. unfold register. rewrite register_user_cases.
  destruct (existsb _ _) eqn:X; [now split|].
  destruct (validate_secret _); [|now split].
  cbn [snd db users]. unfold unique_identities. rewrite !map_app. simpl.
  assert (N : forall u, In u (users (db w)) ->
                collides (reg_username r) (reg_email r) u = false).
  { intros u Hu. apply not_true_is_false. intros C.
    assert (existsb (collides (reg_username r) (reg_email r)) (users (db w)) = true)
      by (apply existsb_exists; now exists u).
    congruence. }
  split; apply NoDup_snoc; auto; intros H; apply in_map_iff in H;
    destruct H as (u & E & Hu); apply N in Hu; unfold collides in Hu;
    apply orb_false_iff in Hu; destruct Hu as [A B].
  - apply String.eqb_neq in A. contradiction.
  - apply String.eqb_neq in B. contradiction.
Qed.

Lemma run_registrations_unique_identities (rs : list Registration) (w : World) :
  unique_identities (users (db w)) ->
  unique_identities (users (db (run_registrations rs w))).
Proof.
  revert w. induction rs as [|r rs IH]; intros w U; simpl; [exact U|].
  apply IH. now apply register_keeps_unique_identities.
Qed.

End Registration.

(** ** Runs: no route removes or rewrites a User *)

Lemma get_current_user_reads (request : Request) (w : World) :
  snd (get_current_user request w) = w.
Proof.
  unfold get_current_user.
  destruct (cookies_get _ _) as [name|]; [|reflexivity].
  destruct (String.eqb name ""); reflexivity.
Qed.

Lemma create_post_keeps_users (uuid : string) (now : Z) (request : Request)
  (content : string) (image : option UploadFile) (current_user : option User.t)
  (w : World) :
  users (db (snd (create_post uuid now request content image current_user w)))
  = users (db w).
Proof.
  unfold create_post. destruct current_user as [u|]; [|reflexivity].
  destruct image as [[[name|] data]|]; try reflexivity.
  unfold bind. destruct (String.eqb name ""); [reflexivity|].
  unfold open_wb at 1. destruct (open_ok (fs w) _); [|reflexivity].
  unfold file_write at 1. cbn [fs write_ok].
  destruct (write_ok (fs w) _ _); reflexivity.
Qed.

Lemma serve_keeps_users {pwd_context : CryptContext} {engine : QueryEngine}
  (r : HttpRequest) (w : World) :
  exists added, users (db (snd (serve r w))) = users (db w) ++ added.
Proof.
  assert (Same : forall w', users (db w') = users (db w) ->
                 exists added, users (db w') = users (db w) ++ added).
  { intros w' ->. exists []. now rewrite app_nil_r. }
  destruct r; simpl.
  - apply Same. unfold GET_home, bind.
    destruct (get_current_user request w) as [[cu|e] w'] eqn:G;
      pose proof (get_current_user_reads request w) as R; rewrite G in R;
      simpl in R; subst w'; reflexivity.
  - apply Same. reflexivity.
  - rewrite register_user_cases. destruct (existsb _ _); simpl.
    + apply Same. reflexivity.
    + destruct (validate_secret password); simpl.
      * eexists. reflexivity.
      * apply Same. reflexivity.
  - apply Same. reflexivity.
  - apply Same. unfold login, bind, get_db, lift.
    destruct (first _) as [u|]; [|reflexivity].
    destruct (verify_password u password) as [[|]|e]; try reflexivity.
    simpl. destruct (set_cookie _ _ _); reflexivity.
  - apply Same. reflexivity.
  - apply Same. unfold GET_dashboard, bind.
    destruct (get_current_user request w) as [[cu|e] w'] eqn:G;
      pose proof (get_current_user_reads request w) as R; rewrite G in R;
      simpl in R; subst w'; [destruct cu|]; reflexivity.
  - apply Same. unfold POST_post, bind.
    destruct (get_current_user request w) as [[cu|e] w'] eqn:G;
      pose proof (get_current_user_reads request w) as R; rewrite G in R;
      simpl in R; subst w'; [apply create_post_keeps_users | reflexivity].
  - apply Same. unfold GET_profile, bind.
    destruct (get_current_user request w) as [[cu|e] w'] eqn:G;
      pose proof (get_current_user_reads request w) as R; rewrite G in R;
      simpl in R; subst w'; [|reflexivity].
    unfold user_profile, bind, get_db. destruct (first _); reflexivity.
  - apply Same. unfold GET_admin, bind.
    destruct (get_current_user request w) as [[cu|e] w'] eqn:G;
      pose proof (get_current_user_reads request w) as R; rewrite G in R;
      simpl in R; subst w'; [|reflexivity].
    unfold admin_dashboard. destruct cu as [u|]; [|reflexivity].
    destruct (negb _); reflexivity.
Qed.

Lemma run_keeps_users {pwd_context : CryptContext} {engine : QueryEngine}
  (rs : list HttpRequest) (w : World) :
  exists added, users (db (run rs w)) = users (db w) ++ added.
Proof.
  revert w. induction rs as [|r rs IH]; intros w; simpl.
  - exists []. now rewrite app_nil_r.
  - destruct (IH (snd (serve r w))) as (added & ->).
    destruct (serve_keeps_users r w) as (first_added & ->).
    eexists. now rewrite <- app_assoc.
Qed.

(** [create_superuser] in closed form. *)
Lemma create_superuser_cases {pwd_context : CryptContext} (salt : string) (w : World) :
  create_superuser salt w =
  match users (db w) with
  | [] =>
      let row := User.mk 1 "admin" "admin@example.com" (hash salt "admin") true in
      (Return tt,
       {| db := {| users := [row]; posts := posts (db w) |};
          fs := fs w;
          trace := trace w ++ [UserCommitted row;
                               Printed "Admin user created: admin / admin"] |})
  | _ :: _ => (Return tt, w)
  end.
Proof.
  unfold create_superuser, bind, get_db, lift. rewrite count_zero.
  destruct (users (db w)) eqn:U; [|reflexivity].
  change (pwd_context_hash salt "admin") with (Return (hash salt "admin")).
  unfold add_commit_user, emit. rewrite U. simpl.
  rewrite <- app_assoc. reflexivity.
Qed.

(** ** Claims about registration and start-up *)

(** C1. In a run of registration requests that starts from the empty store,
    a registration that goes through appends one User for the requested
    name and email, and that User is an admin exactly when no earlier
    request of the run went through: the first successful registration
    yields [is_admin = true], every later one [is_admin = false]. *)
Theorem C1_first_registration_is_admin {pwd_context : CryptContext} :
  forall (earlier : list Registration) (r : Registration)
         (response : Response) (w' : World),
    let w := run_registrations earlier empty_world in
    register r w = (Return response, w') ->
    exists u,
      users (db w') = users (db w) ++ [u]
      /\ User.username u = reg_username r
      /\ User.email u = reg_email r
      /\ User.is_admin u = (successes earlier empty_world =? 0)%nat.
Proof.
  intros earlier r response w'. cbv zeta.
  pose proof (run_registrations_length earlier empty_world) as L.
  change (length (users (db empty_world))) with 0%nat in L.
  generalize dependent (run_registrations earlier empty_world).
  intros w L. unfold register. rewrite register_user_cases.
  destruct (existsb _ _); [discriminate|].
  destruct (validate_secret _); [|discriminate].
  cbv zeta. intros [= _ <-]. eexists. split; [reflexivity|].
  repeat split.
  unfold registered_row. cbn [User.is_admin].
  rewrite Nat.add_0_l in L. rewrite <- L.
  destruct (users (db w)); reflexivity.
Qed.

(** C1 at Bob's registration, which follows Alice's. *)
Lemma C1_first_registration_is_admin_witness :
  exists u,
    users (db alice_and_bob) =
      users (db (run_registrations (H := toy_context) [alice] empty_world)) ++ [u]
    /\ User.username u = "bob"
    /\ User.email u = "b@x.com"
    /\ User.is_admin u = false.
Proof.
  exact (C1_first_registration_is_admin (pwd_context := toy_context)
           [alice] bob _ _ eq_refl).
Defined.

(** C2. Start-up on a store without Users writes the User [admin],
    [admin@example.com], password hash of ["admin"], [is_admin = true];
    on any other store it writes nothing.  After start-up the store holds a
    User, and it still does after any requests served since (registrations
    only, or requests to any route): the store is not empty when a
    registration request arrives. *)
Theorem C2_startup_creates_admin {pwd_context : CryptContext} :
  forall (salt : string) (w : World),
    (users (db w) = [] ->
       fst (lifespan_startup salt w) = Return tt
       /\ users (db (snd (lifespan_startup salt w))) =
            [User.mk 1 "admin" "admin@example.com" (hash salt "admin") true])
    /\ (users (db w) <> [] -> lifespan_startup salt w = (Return tt, w))
    /\ (forall rs : list Registration,
          users (db (run_registrations rs (snd (lifespan_startup salt w)))) <> [])
    /\ (forall (engine : QueryEngine) (rs : list HttpRequest),
          users (db (run rs (snd (lifespan_startup salt w)))) <> []).
Proof.
  intros salt w. unfold lifespan_startup. rewrite create_superuser_cases.
  split; [|split; [|split]].
  - intros U. rewrite U. split; reflexivity.
  - intros U. destruct (users (db w)); [contradiction|reflexivity].
  - intros rs.
    match goal with |- context [run_registrations rs (snd ?p)] =>
      destruct (run_registrations_keeps_users rs (snd p)) as (added & ->) end.
    destruct (users (db w)) eqn:U; cbn; [|rewrite U]; intros E; discriminate E.
  - intros engine rs.
    match goal with |- context [run rs (snd ?p)] =>
      destruct (run_keeps_users rs (snd p)) as (added & ->) end.
    destruct (users (db w)) eqn:U; cbn; [|rewrite U]; intros E; discriminate E.
Qed.

(** C4. A registration whose user name or whose email is already held by
    a User raises the one DuplicateIdentity error (status 400, the same
    detail whichever field collides) and leaves the world as it was: no
    User is created. *)
Theorem C4_duplicate_identity {pwd_context : CryptContext} :
  forall (salt username password email : string) (w : World),
    (exists u, In u (users (db w))
               /\ (User.username u = username \/ User.email u = email)) ->
    register_user salt username password email w = (Raise DuplicateIdentity, w).
Proof.
  intros salt username password email w (u & Hin & Hc).
  rewrite register_user_cases.
  assert (E : existsb (collides username email) (users (db w)) = true).
  { apply existsb_exists. exists u. split; [exact Hin|].
    unfold collides. apply orb_true_iff.
    destruct Hc as [<-| <-]; [left|right]; apply String.eqb_refl. }
  now rewrite E.
Qed.

(** C4 at a new name with Alice's email. *)
Lemma C4_duplicate_identity_witness :
  (exists u, In u (users (db alice_and_bob))
             /\ (User.username u = "carol" \/ User.email u = "a@x.com"))
  /\ register_user (pwd_context := toy_context) "s3" "carol" "pw3" "a@x.com" alice_and_bob
     = (Raise DuplicateIdentity, alice_and_bob).
Proof.
  assert (H : exists u, In u (users (db alice_and_bob))
                        /\ (User.username u = "carol" \/ User.email u = "a@x.com")).
  { eexists. split; [left; reflexivity | right; reflexivity]. }
  split; [exact H|].
  exact (C4_duplicate_identity (pwd_context := toy_context) "s3" "carol" "pw3" "a@x.com"
           alice_and_bob H).
Defined.

(** ** Claims about sessions and login *)

(** [get_current_user] in closed form: it reads, never writes, never
    raises. *)
Lemma get_current_user_cases (request : Request) (w : World) :
  get_current_user request w =
  (Return
     match cookies_get "username" (cookies request) with
     | None => None
     | Some name =>
         if String.eqb name "" then None
         else first (filter (fun u => String.eqb (User.username u) name) (users (db w)))
     end, w).
Proof.
  unfold get_current_user.
  destruct (cookies_get _ _) as [name|]; [|reflexivity].
  destruct (String.eqb name ""); reflexivity.
Qed.

(** [login] in closed form: it reads, and writes nothing. *)
Lemma login_cases {pwd_context : CryptContext} (username password : string) (w : World) :
  login username password w =
  (match first (filter (fun u => String.eqb (User.username u) username) (users (db w))) with
   | None => Raise InvalidCredentials
   | Some u =>
       match verify_password u password with
       | Raise e => Raise e
       | Return false => Raise InvalidCredentials
       | Return true => set_cookie "username" (User.username u) (redirect_to "/dashboard")
       end
   end, w).
Proof.
  unfold login, bind, get_db, lift.
  destruct (first _) as [u|]; [|reflexivity].
  destruct (verify_password u password) as [[|]|e]; try reflexivity.
  simpl. unfold redirect_to. destruct (set_cookie _ _ _); reflexivity.
Qed.



(** C8. The session resolver answers for every request and every store,
    without raising and without writing: no identity when the cookie is
    missing, empty, or names no User; for a cookie that is not empty, the
    User it returns is the stored User of that name, and it returns one
    exactly when some User has that name. *)
Theorem C8_session_resolver_total :
  forall (request : Request) (w : World),
    let token := cookies_get "username" (cookies request) in
    (exists identity, get_current_user request w = (Return identity, w))
    /\ (token = None -> fst (get_current_user request w) = Return None)
    /\ (token = Some "" -> fst (get_current_user request w) = Return None)
    /\ (forall name, token = Some name ->
          (forall u, In u (users (db w)) -> User.username u <> name) ->
          fst (get_current_user request w) = Return None)
    /\ (forall name u, token = Some name -> name <> "" ->
          (fst (get_current_user request w) = Return (Some u)
           <-> stored_user (users (db w)) name u))
    /\ (forall name, token = Some name -> name <> "" ->
          ((exists u, fst (get_current_user request w) = Return (Some u))
           <-> (exists u, In u (users (db w)) /\ User.username u = name)))
    /\ (forall u, fst (get_current_user request w) = Return (Some u) ->
          In u (users (db w)) /\ token = Some (User.username u))
    /\ ((forall u, In u (users (db w)) -> User.username u <> "") ->
        forall name, token = Some name ->
          ((exists u, fst (get_current_user request w) = Return (Some u))
           <-> (exists u, In u (users (db w)) /\ User.username u = name))).
Proof.
  intros request w token. rewrite get_current_user_cases. fold token.
  split; [eexists; reflexivity|]. simpl.
  split; [now intros ->|].
  split; [now intros ->|].
  split.
  { intros name -> N. destruct (String.eqb name ""); [reflexivity|].
    apply first_by_username_none in N. now rewrite N. }
  assert (K : forall name u, name <> "" ->
            (Return (if String.eqb name "" then None
                     else first (filter (fun v => String.eqb (User.username v) name)
                                        (users (db w))))
             = Return (Some u)
             <-> stored_user (users (db w)) name u)).
  { intros name u Hne. apply String.eqb_neq in Hne. rewrite Hne.
    rewrite <- first_by_username. split; [now intros [= ->] | now intros ->]. }
  split; [intros name u ->; apply K|].
  assert (E : forall name, name <> "" ->
            ((exists u, Return (if String.eqb name "" then None
                     else first (filter (fun v => String.eqb (User.username v) name)
                                        (users (db w)))) = Return (Some u))
             <-> (exists u, In u (users (db w)) /\ User.username u = name))).
  { intros name Hne. split.
    - intros (u & Hu). apply K in Hu; [|exact Hne].
      exists u. now apply stored_user_in.
    - intros (u & Hin & Hname).
      destruct (first (filter (fun v => String.eqb (User.username v) name) (users (db w))))
        as [v|] eqn:F.
      + exists v. apply String.eqb_neq in Hne. now rewrite Hne.
      + exfalso. exact (proj1 (first_by_username_none _ _) F u Hin Hname). }
  split; [intros name ->; apply E|].
  split.
  { intros u. destruct token as [name|]; [|discriminate].
    destruct (String.eqb name "") eqn:Q; [discriminate|].
    intros [= F]. apply first_by_username in F. apply stored_user_in in F.
    destruct F as [Hin <-]. now split. }
  intros NE name ->. destruct (String.eqb name "") eqn:Q.
  - apply String.eqb_eq in Q. subst name. split.
    + intros (u & Hu). discriminate.
    + intros (u & Hin & Hname). exfalso. exact (NE u Hin Hname).
  - apply String.eqb_neq in Q. specialize (E name Q).
    apply String.eqb_neq in Q. rewrite Q in E. exact E.
Qed.

Lemma cookies_get_jar_remove (key : string) (jar : list (string * string)) :
  cookies_get key (jar_remove key jar) = None.
Proof.
  induction jar as [|[k v] jar IH]; simpl; [reflexivity|].
  destruct (String.eqb k key) eqn:E; [exact IH|].
  simpl. now rewrite E.
Qed.

(** C9. A request to the dashboard or to post creation for which no
    identity is resolved is answered by a redirect to [/login] (303), not
    by an exception, and nothing is written.  That is the case for the
    jar a browser holds after it has received the answer of logout. *)
Theorem C9_protected_views_redirect :
  (forall (request : Request) (w : World),
     fst (get_current_user request w) = Return None ->
     GET_dashboard request w = (Return (redirect_to "/login"), w)
     /\ forall uuid now content image,
          POST_post uuid now request content image w = (Return (redirect_to "/login"), w))
  /\ (forall (jar : list (string * string)) (w : World),
        exists response,
          logout w = (Return response, w)
          /\ body response = RedirectResponse "/" 303
          /\ let request := {| cookies := browser_receive jar response |} in
             GET_dashboard request w = (Return (redirect_to "/login"), w)
             /\ forall uuid now content image,
                  POST_post uuid now request content image w
                  = (Return (redirect_to "/login"), w)).
Proof.
  assert (A : forall (request : Request) (w : World),
     fst (get_current_user request w) = Return None ->
     GET_dashboard request w = (Return (redirect_to "/login"), w)
     /\ forall uuid now content image,
          POST_post uuid now request content image w = (Return (redirect_to "/login"), w)).
  { intros request w. unfold GET_dashboard, POST_post, bind.
    rewrite get_current_user_cases. simpl. intros [= ->]. split; reflexivity. }
  split; [exact A|].
  intros jar w. eexists. split; [reflexivity|]. split; [reflexivity|].
  apply A. rewrite get_current_user_cases.
  unfold browser_receive. simpl. now rewrite cookies_get_jar_remove.
Qed.

(** C9 at a request without cookies. *)
Lemma C9_protected_views_redirect_witness :
  fst (get_current_user anonymous alice_and_bob) = Return None
  /\ GET_dashboard anonymous alice_and_bob = (Return (redirect_to "/login"), alice_and_bob)
  /\ POST_post "u-1" 100 anonymous "hello" None alice_and_bob
     = (Return (redirect_to "/login"), alice_and_bob).
Proof.
  assert (H : fst (get_current_user anonymous alice_and_bob) = Return None)
    by reflexivity.
  split; [exact H|].
  destruct (proj1 C9_protected_views_redirect anonymous alice_and_bob H) as [D P].
  split; [exact D | exact (P "u-1" 100 "hello" None)].
Defined.

(** ** Claims about profiles and the admin listing *)

(** C10. Profile retrieval for a user name that no User has raises
    NotFound (404) and writes nothing, whoever asks; for a name that a User
    has it returns a page for every request, with or without a resolved
    identity. *)
Theorem C10_profile_not_found {engine : QueryEngine} :
  forall (request : Request) (username : string) (w : World),
    ((forall u, In u (users (db w)) -> User.username u <> username) ->
       (forall current_user,
          user_profile request username current_user w = (Raise NotFound, w))
       /\ GET_profile request username w = (Raise NotFound, w))
    /\ (forall pu, stored_user (users (db w)) username pu ->
          exists page, GET_profile request username w = (Return page, w)).
Proof.
  intros request username w. split.
  - intros N. apply first_by_username_none in N.
    assert (A : forall current_user,
               user_profile request username current_user w = (Raise NotFound, w)).
    { intros cu. unfold user_profile, bind, get_db. now rewrite N. }
    split; [exact A|].
    unfold GET_profile, bind. rewrite get_current_user_cases. apply A.
  - intros pu S. apply first_by_username in S.
    unfold GET_profile, bind. rewrite get_current_user_cases.
    unfold user_profile, bind, get_db. rewrite S. eexists. reflexivity.
Qed.

(** C10 at a name nobody has, asked without a session. *)
Lemma C10_profile_not_found_witness :
  (forall u, In u (users (db alice_and_bob)) -> User.username u <> "carol")
  /\ GET_profile (engine := stable_engine) anonymous "carol" alice_and_bob
     = (Raise NotFound, alice_and_bob).
Proof.
  assert (H : forall u, In u (users (db alice_and_bob)) -> User.username u <> "carol").
  { intros u [<-|[<-|[]]]; discriminate. }
  split; [exact H|].
  exact (proj2 (proj1 (C10_profile_not_found (engine := stable_engine)
                         anonymous "carol" alice_and_bob) H)).
Defined.

(** C5. The admin listing raises Forbidden (403) exactly when no identity
    is resolved or the resolved identity is not an admin, and it raises
    nothing else.  For an admin it returns the whole [users] table in rowid
    (insertion) order and every Post, ordered by [created_at] descending.
    It writes nothing, and the route hands it the identity the session
    resolver found. *)
Theorem C5_admin_listing {engine : QueryEngine} {laws : QueryEngineLaws engine} :
  forall (request : Request) (current_user : option User.t) (w : World),
    (fst (admin_dashboard request current_user w) = Raise Forbidden <->
       current_user = None
       \/ exists u, current_user = Some u /\ User.is_admin u = false)
    /\ (forall e, fst (admin_dashboard request current_user w) = Raise e -> e = Forbidden)
    /\ (forall u, current_user = Some u -> User.is_admin u = true ->
          exists listed,
            fst (admin_dashboard request current_user w)
            = Return (respond (TemplateResponse "admin.html"
                        [("request", VRequest request); ("users", VUsers (users (db w)));
                         ("posts", VPosts listed); ("user", VUser (Some u))]))
            /\ Permutation (posts (db w)) listed
            /\ StronglySorted newer_or_same listed)
    /\ snd (admin_dashboard request current_user w) = w
    /\ (forall identity, fst (get_current_user request w) = Return identity ->
          GET_admin request w = admin_dashboard request identity w).
Proof.
  intros request current_user w. unfold admin_dashboard.
  destruct current_user as [u|]; simpl.
  - destruct (User.is_admin u) eqn:A; simpl.
    + repeat split.
      * discriminate.
      * intros [H|(v & [= <-] & H)]; [discriminate | congruence].
      * discriminate.
      * intros v [= <-] _. eexists. split; [reflexivity|]. unfold all. split.
        -- apply order_by_permutation.
        -- apply order_by_sorted.
      * intros identity. unfold GET_admin, bind. rewrite get_current_user_cases.
        now intros [= ->].
    + repeat split.
      * intros _. right. now exists u.
      * now intros e [= <-].
      * intros v [= <-]. congruence.
      * intros identity. unfold GET_admin, bind. rewrite get_current_user_cases.
        now intros [= ->].
  - repeat split.
    + intros _. now left.
    + now intros e [= <-].
    + discriminate.
    + intros identity. unfold GET_admin, bind. rewrite get_current_user_cases.
      now intros [= ->].
Qed.

(** C5 at Alice, the admin, after Bob's two posts. *)
Lemma C5_admin_listing_witness :
  QueryEngineLaws stable_engine
  /\ exists listed,
       fst (admin_dashboard (engine := stable_engine) (request_as "alice")
              (Some alice_row) (posted_twice 100 200))
       = Return (respond (TemplateResponse "admin.html"
                   [("request", VRequest (request_as "alice"));
                    ("users", VUsers [alice_row; bob_row]);
                    ("posts", VPosts listed); ("user", VUser (Some alice_row))]))
       /\ Permutation [first_post 100; second_post 200] listed
       /\ StronglySorted newer_or_same listed.
Proof.
  split; [exact stable_engine_laws|].
  exact (proj1 (proj2 (proj2 (C5_admin_listing (engine := stable_engine)
                                (laws := stable_engine_laws)
                                (request_as "alice") (Some alice_row)
                                (posted_twice 100 200))))
           alice_row eq_refl eq_refl).
Defined.

(** ** Post creation *)

Lemma open_error_opened (f : FileSystem) (path : string) :
  open_ok f path = true -> open_error path = OSError path.
Proof.
  intros O. unfold open_error. destruct (has_nul path) eqn:N; [|reflexivity].
  rewrite (open_ok_nul f path N) in O. discriminate.
Qed.

(** [create_post] with an attached image, in closed form. *)
Lemma create_post_with_image (uuid : string) (now : Z) (request : Request)
  (content name data : string) (u : User.t) (w : World) :
  name <> "" ->
  let path := (UPLOAD_DIR ++ "/" ++ uuid ++ splitext_ext name)%string in
  let post :=
    Post.mk (next_id (map Post.id (posts (db w)))) content
            (Some ("uploads/" ++ uuid ++ splitext_ext name)%string) now (User.id u) in
  let opened :=
    {| files := files_put path "" (files (fs w));
       open_ok := open_ok (fs w); write_ok := write_ok (fs w);
       open_ok_nul := open_ok_nul (fs w) |} in
  let written :=
    {| files := files_put path data (files opened);
       open_ok := open_ok (fs w); write_ok := write_ok (fs w);
       open_ok_nul := open_ok_nul (fs w) |} in
  create_post uuid now request content
    (Some {| filename := Some name; file_data := data |}) (Some u) w =
  if open_ok (fs w) path then
    if write_ok (fs w) path data then
      (Return (redirect_to "/dashboard"),
       {| db := {| users := users (db w); posts := posts (db w) ++ [post] |};
          fs := written;
          trace := trace w ++ [FileOpened path; FileWritten path data; PostCommitted post] |})
    else
      (Raise (OSError path),
       {| db := db w; fs := opened; trace := trace w ++ [FileOpened path] |})
  else (Raise (open_error path), w).
Proof.
  intros Hne. apply String.eqb_neq in Hne. cbv zeta.
  unfold create_post, bind. rewrite Hne.
  unfold open_wb at 1.
  destruct (open_ok (fs w) _) eqn:O; [|reflexivity].
  unfold file_write at 1. cbn [fs write_ok].
  destruct (write_ok (fs w) _ _) eqn:Wr; [|reflexivity].
  unfold ret, add_commit_post, redirect_to. cbn [db fs trace users posts files].
  repeat rewrite <- app_assoc. reflexivity.
Qed.

(** C7. Post creation with an attached image: when the file goes to the
    upload area and the record to the table, the trace shows the file
    opened and written before the Post is committed; when opening or
    writing the file fails, the handler raises the error of the failed
    call (an OSError; the ValueError of [open] for a path with a NUL), the
    database is as it was, and no Post is committed. *)
Theorem C7_file_write_before_commit :
  forall (uuid : string) (now : Z) (request : Request) (content name data : string)
         (u : User.t) (w : World),
    name <> "" ->
    let image := Some {| filename := Some name; file_data := data |} in
    let path := (UPLOAD_DIR ++ "/" ++ uuid ++ splitext_ext name)%string in
    let result := create_post uuid now request content image (Some u) w in
    (open_ok (fs w) path = true -> write_ok (fs w) path data = true ->
       exists post,
         fst result = Return (redirect_to "/dashboard")
         /\ trace (snd result)
            = trace w ++ [FileOpened path; FileWritten path data; PostCommitted post]
         /\ posts (db (snd result)) = posts (db w) ++ [post]
         /\ Post.content post = content
         /\ Post.image_path post = Some ("uploads/" ++ uuid ++ splitext_ext name)%string
         /\ Post.user_id post = User.id u)
    /\ (open_ok (fs w) path = false \/ write_ok (fs w) path data = false ->
          fst result = Raise (open_error path)
          /\ db (snd result) = db w
          /\ exists effects,
               trace (snd result) = trace w ++ effects
               /\ forall p, ~ In (PostCommitted p) effects).
Proof.
  intros uuid now request content name data u w Hne. cbv zeta.
  rewrite create_post_with_image by exact Hne. cbv zeta.
  split.
  - intros -> ->. eexists. repeat split.
  - intros F.
    destruct (open_ok (fs w) _) eqn:O.
    + destruct F as [F|F]; [discriminate|]. rewrite F.
      rewrite (open_error_opened _ _ O).
      repeat split. exists [FileOpened (UPLOAD_DIR ++ "/" ++ uuid ++ splitext_ext name)%string].
      split; [reflexivity|]. intros p [H|[]]. discriminate.
    + repeat split. exists []. split; [now rewrite app_nil_r|]. intros p [].
Qed.

(** C7 at an upload to a full disk. *)
Lemma C7_file_write_before_commit_witness :
  "cat.png" <> ""
  /\ let w := {| db := db alice_and_bob; fs := full_disk; trace := [] |} in
     let result := create_post "u-1" 100 (request_as "bob") "hello"
                     (Some cat_picture) (Some bob_row) w in
     fst result = Raise (OSError "static/uploads/u-1.png")
     /\ db (snd result) = db alice_and_bob
     /\ exists effects,
          trace (snd result) = [] ++ effects
          /\ forall p, ~ In (PostCommitted p) effects.
Proof.
  assert (H : "cat.png" <> "") by discriminate.
  split; [exact H|].
  exact (proj2 (C7_file_write_before_commit "u-1" 100 (request_as "bob") "hello"
                  "cat.png" "PNG" bob_row
                  {| db := db alice_and_bob; fs := full_disk; trace := [] |} H)
           (or_intror eq_refl)).
Defined.

(** ** Profiles *)

Lemma user_profile_found {engine : QueryEngine} (request : Request) (username : string)
  (viewer : option User.t) (w : World) (pu : User.t) :
  stored_user (users (db w)) username pu ->
  user_profile request username viewer w =
  (Return (profile_page request pu
             (order_by_created_at_desc (filter (owned_by pu) (posts (db w)))) viewer), w).
Proof.
  intros S. apply first_by_username in S.
  unfold user_profile, bind, get_db. now rewrite S.
Qed.

Lemma create_post_without_image (uuid : string) (now : Z) (request : Request)
  (content : string) (u : User.t) (w : World) :
  create_post uuid now request content None (Some u) w =
  let post := Post.mk (next_id (map Post.id (posts (db w)))) content None now (User.id u) in
  (Return (redirect_to "/dashboard"),
   {| db := {| users := users (db w); posts := posts (db w) ++ [post] |};
      fs := fs w;
      trace := trace w ++ [PostCommitted post] |}).
Proof. reflexivity. Qed.

Lemma filter_none {A} (f : A -> bool) (l : list A) :
  Forall (fun x => f x = false) l -> filter f l = [].
Proof.
  induction 1 as [|x l Hx _ IH]; simpl; [reflexivity|]. now rewrite Hx.
Qed.

Lemma sorted_pair_newest_first (listed : list Post.t) (p1 p2 : Post.t) :
  Post.created_at p1 < Post.created_at p2 ->
  Permutation [p1; p2] listed ->
  StronglySorted newer_or_same listed ->
  listed = [p2; p1].
Proof.
  intros Lt P S.
  destruct (Permutation_length_2_inv P) as [-> | ->]; [|reflexivity].
  inversion S as [|? ? _ F]; subst. inversion F as [|? ? N _]; subst.
  unfold newer_or_same in N. lia.
Qed.

(** C6, as the code has it.  For every stored User the profile lists that
    User's Posts and no others (a permutation of the rows whose [user_id]
    is the User's id), with [created_at] never increasing down the list;
    the code gives no second sort key, so the order of Posts with equal
    [created_at] is the engine's.  When a User without Posts creates P1
    and then P2, and the clock reading of P2 is later than that of P1, the
    profile lists [P2; P1]. *)
Theorem C6_profile_posts_newest_first
  {engine : QueryEngine} {laws : QueryEngineLaws engine} :
  (forall (request : Request) (username : string) (viewer : option User.t)
          (w : World) (pu : User.t),
     stored_user (users (db w)) username pu ->
     exists listed,
       user_profile request username viewer w
       = (Return (profile_page request pu listed viewer), w)
       /\ Permutation (filter (owned_by pu) (posts (db w))) listed
       /\ StronglySorted newer_or_same listed)
  /\ (forall (uuid1 uuid2 : string) (t1 t2 : Z) (request : Request)
             (content1 content2 : string) (viewer : option User.t)
             (u : User.t) (w : World),
        stored_user (users (db w)) (User.username u) u ->
        Forall (fun p => owned_by u p = false) (posts (db w)) ->
        t1 < t2 ->
        let w1 := snd (create_post uuid1 t1 request content1 None (Some u) w) in
        let w2 := snd (create_post uuid2 t2 request content2 None (Some u) w1) in
        exists P1 P2,
          posts (db w2) = posts (db w) ++ [P1; P2]
          /\ (Post.content P1, Post.created_at P1) = (content1, t1)
          /\ (Post.content P2, Post.created_at P2) = (content2, t2)
          /\ user_profile request (User.username u) viewer w2
             = (Return (profile_page request u [P2; P1] viewer), w2)).
Proof.
  split.
  - intros request username viewer w pu S.
    eexists. split; [now apply user_profile_found|]. split.
    + apply order_by_permutation.
    + apply order_by_sorted.
  - intros uuid1 uuid2 t1 t2 request content1 content2 viewer u w S Old Lt.
    cbv zeta. rewrite !create_post_without_image. cbv zeta.
    cbn [snd db users posts].
    set (P1 := Post.mk (next_id (map Post.id (posts (db w)))) content1 None t1 (User.id u)).
    set (P2 := Post.mk (next_id (map Post.id (posts (db w) ++ [P1]))) content2 None t2
                       (User.id u)).
    exists P1, P2. split; [now rewrite <- app_assoc|].
    split; [reflexivity|]. split; [reflexivity|].
    match goal with |- user_profile _ _ _ ?W = _ =>
      rewrite (user_profile_found request (User.username u) viewer W u S) end.
    cbn [db posts]. do 3 f_equal.
    apply sorted_pair_newest_first with (p1 := P1) (p2 := P2).
    + exact Lt.
    + eapply perm_trans; [|apply order_by_permutation].
      rewrite !filter_app, (filter_none _ _ Old). simpl.
      unfold owned_by. cbn [Post.user_id P1 P2]. rewrite Z.eqb_refl.
      apply Permutation_refl.
    + apply order_by_sorted.
Qed.

(** C6 at Bob's two posts, written at the readings 100 and 200. *)
Lemma C6_profile_posts_newest_first_witness :
  QueryEngineLaws stable_engine
  /\ stored_user (users (db alice_and_bob)) "bob" bob_row
  /\ Forall (fun p => owned_by bob_row p = false) (posts (db alice_and_bob))
  /\ 100 < 200
  /\ exists P1 P2,
       posts (db (posted_twice 100 200)) = posts (db alice_and_bob) ++ [P1; P2]
       /\ (Post.content P1, Post.created_at P1) = ("first", 100)
       /\ (Post.content P2, Post.created_at P2) = ("second", 200)
       /\ user_profile (engine := stable_engine) (request_as "bob") "bob" None
            (posted_twice 100 200)
          = (Return (profile_page (request_as "bob") bob_row [P2; P1] None),
             posted_twice 100 200).
Proof.
  assert (S : stored_user (users (db alice_and_bob)) "bob" bob_row).
  { exists [alice_row], []. repeat split. constructor; [discriminate|constructor]. }
  assert (O : Forall (fun p => owned_by bob_row p = false) (posts (db alice_and_bob)))
    by constructor.
  assert (L : 100 < 200) by lia.
  split; [exact stable_engine_laws|]. split; [exact S|]. split; [exact O|].
  split; [exact L|].
  exact (proj2 (C6_profile_posts_newest_first (engine := stable_engine)
                  (laws := stable_engine_laws))
           "u-1" "u-2" 100 200 (request_as "bob") "first" "second" None
           bob_row alice_and_bob S O L).
Defined.

(** C6 with its tie-break and its [P2; P1] fails where two Posts carry
    the same [created_at]: Bob creates P1 and then P2 at one clock
    reading.  An engine that keeps the ORDER BY contract and leaves equal
    keys in scan order lists [P1; P2], not [P2; P1]; another that keeps
    the contract lists [P2; P1]; nothing in the query settles the tie. *)
Lemma C6_equal_created_at_counterexample :
  let P1 := first_post 100 in
  let P2 := second_post 100 in
  posts (db (posted_twice 100 100)) = [P1; P2]
  /\ QueryEngineLaws stable_engine
  /\ QueryEngineLaws reversing_engine
  /\ fst (GET_profile (engine := stable_engine) anonymous "bob" (posted_twice 100 100))
     = Return (profile_page anonymous bob_row [P1; P2] None)
  /\ fst (GET_profile (engine := reversing_engine) anonymous "bob" (posted_twice 100 100))
     = Return (profile_page anonymous bob_row [P2; P1] None)
  /\ [P1; P2] <> [P2; P1].
Proof.
  cbv zeta. split; [reflexivity|].
  split; [exact stable_engine_laws|]. split; [exact reversing_engine_laws|].
  split; [reflexivity|]. split; [reflexivity|]. discriminate.
Qed.

(** ** The scenario, run *)

(** Alice registers first and is the admin, Bob is not; Bob logs in, posts
    once; his profile shows the post; the admin listing refuses Bob and
    shows Alice both users and the post. *)
Example scenario_two_users :
  let posted := snd (POST_post "u-1" 100 (request_as "bob") "hello" None alice_and_bob) in
  let post := Post.mk 1 "hello" None 100 2 in
  users (db alice_and_bob) = [alice_row; bob_row]
  /\ fst (login (pwd_context := toy_context) "bob" "pw2" alice_and_bob)
     = Return (with_cookie "username" "bob" (redirect_to "/dashboard"))
  /\ fst (login (pwd_context := toy_context) "bob" "pw1" alice_and_bob)
     = Raise InvalidCredentials
  /\ posts (db posted) = [post]
  /\ fst (GET_profile (engine := stable_engine) anonymous "bob" posted)
     = Return (profile_page anonymous bob_row [post] None)
  /\ fst (GET_admin (engine := stable_engine) (request_as "bob") posted) = Raise Forbidden
  /\ fst (GET_admin (engine := stable_engine) (request_as "alice") posted)
     = Return (respond (TemplateResponse "admin.html"
                 [("request", VRequest (request_as "alice"));
                  ("users", VUsers [alice_row; bob_row]);
                  ("posts", VPosts [post]); ("user", VUser (Some alice_row))])).
Proof. cbv zeta. repeat split. Qed.

(** Start-up comes first in a served application: the admin is the
    superuser, and Alice, the first to register, is not one. *)
Example scenario_after_startup :
  map (fun u => (User.username u, User.is_admin u))
      (users (db (run_registrations (H := toy_context) [alice; bob]
                    (snd (lifespan_startup (pwd_context := toy_context) "s0" empty_world)))))
  = [("admin", true); ("alice", false); ("bob", false)].
Proof. reflexivity. Qed.

Example splitext_ext_samples :
  map splitext_ext ["a.txt"; ".bashrc"; "..a"; "a/b.c/d"; "a.b/.c"; "x.tar.gz"; "a."; ""]
  = [".txt"; ""; ""; ""; ""; ".gz"; "."; ""].
Proof. reflexivity. Qed.

(** SQLite's answer on four rows whose keys are 10, 10, 9, 10. *)
Example stable_sort_desc_sample :
  map Post.id (stable_sort_desc
    [Post.mk 1 "a" None 10 1; Post.mk 2 "b" None 10 1;
     Post.mk 3 "c" None 9 1; Post.mk 4 "d" None 10 1])
  = [1; 2; 4; 3].
Proof. reflexivity. Qed.

(** * Further properties of the handlers *)

(** ** Closed forms used below *)

Lemma bind_get_current_user {A} (request : Request) (k : option User.t -> M A) (w : World) :
  bind (get_current_user request) k w = k (resolved_identity request w) w.
Proof. unfold bind. now rewrite get_current_user_cases. Qed.

Lemma resolved_identity_stored (request : Request) (w : World) (u : User.t) :
  resolved_identity request w = Some u ->
  stored_user (users (db w)) (User.username u) u
  /\ User.username u <> ""
  /\ cookies_get "username" (cookies request) = Some (User.username u).
Proof.
  unfold resolved_identity. destruct (cookies_get _ _) as [name|]; [|discriminate].
  destruct (String.eqb name "") eqn:E; [discriminate|]. intros F.
  apply first_by_username in F. destruct (stored_user_in _ _ _ F) as [_ N]. subst name.
  apply String.eqb_neq in E. now repeat split.
Qed.

Lemma user_profile_cases {engine : QueryEngine} (request : Request) (username : string)
  (viewer : option User.t) (w : World) :
  user_profile request username viewer w =
  (match first (filter (fun u => String.eqb (User.username u) username) (users (db w))) with
   | None => Raise NotFound
   | Some pu =>
       Return (profile_page request pu
                 (order_by_created_at_desc (filter (owned_by pu) (posts (db w)))) viewer)
   end, w).
Proof.
  unfold user_profile, bind, get_db. destruct (first _); reflexivity.
Qed.

Lemma admin_dashboard_cases {engine : QueryEngine} (request : Request)
  (current_user : option User.t) (w : World) :
  admin_dashboard request current_user w =
  (match current_user with
   | None => Raise Forbidden
   | Some u =>
       if User.is_admin u
       then Return (respond (TemplateResponse "admin.html"
                      [("request", VRequest request); ("users", VUsers (users (db w)));
                       ("posts", VPosts (order_by_created_at_desc (posts (db w))));
                       ("user", VUser (Some u))]))
       else Raise Forbidden
   end, w).
Proof.
  unfold admin_dashboard. destruct current_user as [u|]; [|reflexivity].
  destruct (User.is_admin u); reflexivity.
Qed.

(** What [create_post] does for a resolved identity: it either commits one
    Post of that identity and redirects, or the upload fails and the
    database is as it was. *)
Lemma create_post_effect (uuid : string) (now : Z) (request : Request) (content : string)
  (image : option UploadFile) (u : User.t) (w : World) :
  let result := create_post uuid now request content image (Some u) w in
  (fst result = Return (redirect_to "/dashboard")
   /\ users (db (snd result)) = users (db w)
   /\ posts (db (snd result))
      = posts (db w)
        ++ [Post.mk (next_id (map Post.id (posts (db w)))) content
                    (match image with
                     | Some {| filename := Some name |} =>
                         if String.eqb name "" then None
                         else Some ("uploads/" ++ uuid ++ splitext_ext name)%string
                     | _ => None
                     end) now (User.id u)])
  \/ (exists name data,
        image = Some {| filename := Some name; file_data := data |}
        /\ name <> ""
        /\ fst result
           = Raise (open_error (UPLOAD_DIR ++ "/" ++ uuid ++ splitext_ext name)%string)
        /\ db (snd result) = db w).
Proof.
  cbv zeta. destruct image as [[[name|] data]|]; try solve [left; repeat split].
  destruct (String.eqb name "") eqn:E.
  - left. unfold create_post, bind. rewrite E. repeat split.
  - apply String.eqb_neq in E. rewrite create_post_with_image by exact E. cbv zeta.
    destruct (open_ok (fs w) _) eqn:O.
    + destruct (write_ok (fs w) _ _).
      * left. repeat split.
      * right. exists name, data. rewrite (open_error_opened _ _ O).
        repeat split. exact E.
    + right. exists name, data. repeat split. exact E.
Qed.

(** One request changes the database in one of three ways: not at all, by
    one registered User, or by one Post of the resolved identity. *)
Lemma serve_effect {pwd_context : CryptContext} {engine : QueryEngine}
  (r : HttpRequest) (w : World) :
  db (snd (serve r w)) = db w
  \/ (exists salt username password email,
        r = PostRegister salt username password email
        /\ existsb (collides username email) (users (db w)) = false
        /\ users (db (snd (serve r w)))
           = users (db w) ++ [registered_row salt username password email w]
        /\ posts (db (snd (serve r w))) = posts (db w))
  \/ (exists uuid now request content image u post,
        r = PostPost uuid now request content image
        /\ resolved_identity request w = Some u
        /\ Post.user_id post = User.id u
        /\ users (db (snd (serve r w))) = users (db w)
        /\ posts (db (snd (serve r w))) = posts (db w) ++ [post]).
Proof.
  destruct r; simpl.
  - left. unfold GET_home. now rewrite bind_get_current_user.
  - now left.
  - rewrite register_user_cases.
    destruct (existsb _ _) eqn:X; [now left|].
    destruct (validate_secret password); [|now left].
    right. left. exists salt, username, password, email. now repeat split.
  - now left.
  - left. now rewrite login_cases.
  - now left.
  - left. unfold GET_dashboard. rewrite bind_get_current_user.
    now destruct (resolved_identity request w).
  - unfold POST_post. rewrite bind_get_current_user.
    destruct (resolved_identity request w) as [u|] eqn:R; [|now left].
    destruct (create_post_effect uuid now request content image u w)
      as [(_ & U & P) | (name & data & _ & _ & _ & D)]; [|now left].
    right. right. eexists uuid, now, request, content, image, u, _.
    split; [reflexivity|]. split; [exact R|]. split; [|split; [exact U | exact P]].
    reflexivity.
  - left. unfold GET_profile. rewrite bind_get_current_user. now rewrite user_profile_cases.
  - left. unfold GET_admin. rewrite bind_get_current_user. now rewrite admin_dashboard_cases.
Qed.

Lemma fold_max_above (i : Z) (rest : list Z) :
  i <= fold_right Z.max i rest
  /\ Forall (fun j => j <= fold_right Z.max i rest) rest.
Proof.
  induction rest as [|k rest [IH1 IH2]]; cbn [fold_right].
  - split; [lia | constructor].
  - split; [lia|]. constructor; [lia|].
    eapply Forall_impl; [|exact IH2]. cbv beta. intros; lia.
Qed.

Lemma next_id_above (ids : list Z) : Forall (fun i => i < next_id ids) ids.
Proof.
  destruct ids as [|i rest]; [constructor|]. unfold next_id.
  destruct (fold_max_above i rest) as [A B].
  constructor; [lia|].
  eapply Forall_impl; [|exact B]. cbv beta. intros; lia.
Qed.

Lemma stored_user_app (rows added : list User.t) (name : string) (u : User.t) :
  stored_user rows name u -> stored_user (rows ++ added) name u.
Proof.
  intros (o & n & -> & Hu & Ho). exists o, (n ++ added).
  rewrite <- app_assoc. now repeat split.
Qed.

(** ** Registration, identities and privileges *)

(** X1. A registration whose user name and email are both new goes as
    [pwd_context.hash] goes.  When the hash is made, the answer is the
    redirect to [/login] with no cookie, and the store gains exactly one
    User with the requested name and email, that hash, and an id that no
    row had; posts and files are untouched.  When passlib refuses the
    password (more than 4096 characters, or a NUL), its exception is the
    answer and nothing is written. *)
Theorem register_user_accepts_fresh_identity {pwd_context : CryptContext} :
  forall (salt username password email : string) (w : World),
    (forall u, In u (users (db w)) ->
               User.username u <> username /\ User.email u <> email) ->
    let result := register_user salt username password email w in
    (forall hashed, pwd_context_hash salt password = Return hashed ->
       fst result = Return {| body := RedirectResponse "/login" 303; cookie_ops := [] |}
       /\ (exists row,
             users (db (snd result)) = users (db w) ++ [row]
             /\ User.username row = username
             /\ User.email row = email
             /\ User.hashed_password row = hashed
             /\ ~ In (User.id row) (map User.id (users (db w))))
       /\ posts (db (snd result)) = posts (db w)
       /\ fs (snd result) = fs w)
    /\ (forall e, pwd_context_hash salt password = Raise e ->
          result = (Raise e, w)
          /\ ((e = PasswordSizeError /\ MAX_PASSWORD_SIZE < code_points password)
              \/ (e = PasswordValueError /\ has_nul password = true))).
Proof.
  intros salt username password email w Fresh. cbv zeta.
  rewrite register_user_cases.
  assert (X : existsb (collides username email) (users (db w)) = false).
  { apply not_true_is_false. intros H. apply existsb_exists in H.
    destruct H as (u & Hin & C). destruct (Fresh u Hin) as [Nu Ne].
    unfold collides in C. apply orb_true_iff in C.
    destruct C as [C|C]; apply String.eqb_eq in C; contradiction. }
  rewrite X. unfold pwd_context_hash, validate_secret.
  destruct (MAX_PASSWORD_SIZE <? code_points password) eqn:Sz.
  - split; [discriminate|]. intros e [= <-]. split; [reflexivity|].
    left. split; [reflexivity|]. now apply Z.ltb_lt.
  - destruct (has_nul password) eqn:Nul.
    + split; [discriminate|]. intros e [= <-]. split; [reflexivity|]. now right.
    + split; [|discriminate]. intros hashed [= <-].
      cbv zeta. cbn [fst snd db fs users posts].
      split; [reflexivity|]. split; [|split; reflexivity].
      eexists. split; [reflexivity|]. repeat split.
      unfold registered_row. cbn [User.id]. intros H.
      pose proof (next_id_above (map User.id (users (db w)))) as A.
      rewrite Forall_forall in A. apply A in H. lia.
Qed.

(** X1 at Bob's registration after Alice's. *)
Lemma register_user_accepts_fresh_identity_witness :
  (forall u, In u (users (db (run_registrations (H := toy_context) [alice] empty_world))) ->
             User.username u <> "bob" /\ User.email u <> "b@x.com")
  /\ fst (register_user (pwd_context := toy_context) "s2" "bob" "pw2" "b@x.com"
            (run_registrations (H := toy_context) [alice] empty_world))
     = Return {| body := RedirectResponse "/login" 303; cookie_ops := [] |}.
Proof.
  assert (F : forall u,
             In u (users (db (run_registrations (H := toy_context) [alice] empty_world))) ->
             User.username u <> "bob" /\ User.email u <> "b@x.com").
  { intros u [<-|[]]. split; discriminate. }
  split; [exact F|].
  exact (proj1 (proj1 (register_user_accepts_fresh_identity (pwd_context := toy_context)
                         "s2" "bob" "pw2" "b@x.com"
                         (run_registrations (H := toy_context) [alice] empty_world) F)
                  _ eq_refl)).
Defined.

Lemma serve_keeps_identities {pwd_context : CryptContext} {engine : QueryEngine}
  (r : HttpRequest) (w : World) :
  unique_identities (users (db w)) /\ NoDup (map User.id (users (db w))) ->
  unique_identities (users (db (snd (serve r w))))
  /\ NoDup (map User.id (users (db (snd (serve r w))))).
Proof.
  intros [[Hn He] Hi].
  destruct (serve_effect r w)
    as [D | [(salt & username & password & email & -> & X & U & _)
            | (uuid & now & request & content & image & u & post & _ & _ & _ & U & _)]].
  - rewrite D. now repeat split.
  - rewrite U. unfold unique_identities. rewrite !map_app. cbn [map].
    assert (N : forall u, In u (users (db w)) -> collides username email u = false).
    { intros u Hu. apply not_true_is_false. intros C.
      assert (existsb (collides username email) (users (db w)) = true)
        by (apply existsb_exists; now exists u).
      congruence. }
    repeat split; apply NoDup_snoc; auto; intros H.
    + apply in_map_iff in H. destruct H as (u & E & Hu). apply N in Hu.
      unfold collides in Hu. apply orb_false_iff in Hu. destruct Hu as [A _].
      apply String.eqb_neq in A. contradiction.
    + apply in_map_iff in H. destruct H as (u & E & Hu). apply N in Hu.
      unfold collides in Hu. apply orb_false_iff in Hu. destruct Hu as [_ B].
      apply String.eqb_neq in B. contradiction.
    + pose proof (next_id_above (map User.id (users (db w)))) as A.
      rewrite Forall_forall in A. apply A in H. unfold registered_row in H.
      cbn [User.id] in H. lia.
  - rewrite U. now repeat split.
Qed.

(** X2. Whatever requests are served, no two Users share a user name, an
    email or an id, provided none did before: the check of
    [register_user] and the ids the store assigns keep the three columns
    free of duplicates. *)
Theorem run_keeps_identities_unique {pwd_context : CryptContext} {engine : QueryEngine} :
  forall (rs : list HttpRequest) (w : World),
    unique_identities (users (db w)) ->
    NoDup (map User.id (users (db w))) ->
    unique_identities (users (db (run rs w)))
    /\ NoDup (map User.id (users (db (run rs w)))).
Proof.
  induction rs as [|r rs IH]; intros w U I; simpl; [now split|].
  destruct (serve_keeps_identities r w (conj U I)) as [U' I'].
  now apply IH.
Qed.

(** X2 from the empty store: Alice, Bob, then Bob's name once more. *)
Lemma run_keeps_identities_unique_witness :
  let w := run (H := toy_context) (H0 := stable_engine)
             [PostRegister "s1" "alice" "pw1" "a@x.com";
              PostRegister "s2" "bob" "pw2" "b@x.com";
              PostRegister "s3" "bob" "pw3" "c@x.com"] empty_world in
  unique_identities (users (db empty_world))
  /\ NoDup (map User.id (users (db empty_world)))
  /\ unique_identities (users (db w))
  /\ NoDup (map User.id (users (db w))).
Proof.
  cbv zeta.
  assert (U : unique_identities (users (db empty_world))) by (split; constructor).
  assert (I : NoDup (map User.id (users (db empty_world)))) by constructor.
  split; [exact U|]. split; [exact I|].
  exact (run_keeps_identities_unique (pwd_context := toy_context) (engine := stable_engine)
           _ empty_world U I).
Defined.

(** X3. Once the store holds a User, no request makes an admin: after any
    requests the old rows are still there, unchanged and in place, and
    every row added since has [is_admin = false]. *)
Theorem run_adds_no_admin {pwd_context : CryptContext} {engine : QueryEngine} :
  forall (rs : list HttpRequest) (w : World),
    users (db w) <> [] ->
    exists added,
      users (db (run rs w)) = users (db w) ++ added /\ no_admin added.
Proof.
  induction rs as [|r rs IH]; intros w NE; simpl.
  - exists []. split; [now rewrite app_nil_r | constructor].
  - assert (S : exists one, users (db (snd (serve r w))) = users (db w) ++ one
                            /\ no_admin one).
    { destruct (serve_effect r w)
        as [D | [(salt & username & password & email & -> & X & U & _)
                | (uuid & now & request & content & image & u & post & _ & _ & _ & U & _)]].
      - exists []. rewrite D, app_nil_r. split; [reflexivity | constructor].
      - eexists. split; [exact U|]. constructor; [|constructor].
        unfold registered_row. cbn [User.is_admin].
        destruct (users (db w)); [contradiction | reflexivity].
      - exists []. rewrite U, app_nil_r. split; [reflexivity | constructor]. }
    destruct S as (one & S1 & A1).
    destruct (IH (snd (serve r w))) as (more & S2 & A2).
    { rewrite S1. destruct (users (db w)); [contradiction | discriminate]. }
    exists (one ++ more). rewrite S2, S1, app_assoc. split; [reflexivity|].
    unfold no_admin. apply Forall_app. now split.
Qed.

(** X3 after start-up: two registrations add two Users, neither an admin. *)
Lemma run_adds_no_admin_witness :
  let started := snd (lifespan_startup (pwd_context := toy_context) "s0" empty_world) in
  users (db started) <> []
  /\ exists added,
       users (db (run (H := toy_context) (H0 := stable_engine)
                    [PostRegister "s1" "alice" "pw1" "a@x.com";
                     PostRegister "s2" "bob" "pw2" "b@x.com"] started))
       = users (db started) ++ added
       /\ no_admin added.
Proof.
  cbv zeta.
  assert (N : users (db (snd (lifespan_startup (pwd_context := toy_context) "s0"
                                empty_world))) <> []) by discriminate.
  split; [exact N|].
  exact (run_adds_no_admin (pwd_context := toy_context) (engine := stable_engine) _ _ N).
Defined.

(** X4. Every Post points at a User of the store, after any requests, if
    that was so before: [create_post] takes [user_id] from the row the
    session resolver found, and no request removes a User. *)
Theorem run_keeps_posts_authored {pwd_context : CryptContext} {engine : QueryEngine} :
  forall (rs : list HttpRequest) (w : World),
    posts_have_authors (db w) ->
    posts_have_authors (db (run rs w)).
Proof.
  induction rs as [|r rs IH]; intros w A; simpl; [exact A|].
  apply IH. unfold posts_have_authors in *.
  destruct (serve_effect r w)
    as [D | [(salt & username & password & email & -> & X & U & P)
            | (uuid & now & request & content & image & u & post & _ & R & Pu & U & P)]].
  - now rewrite D.
  - rewrite U, P. eapply Forall_impl; [|exact A]. cbv beta.
    intros p (v & Hv & E). exists v. split; [|exact E].
    apply in_or_app. now left.
  - rewrite U, P. apply Forall_app. split; [exact A|].
    constructor; [|constructor]. exists u. split; [|now rewrite Pu].
    apply resolved_identity_stored in R. destruct R as (S & _).
    now apply stored_user_in in S.
Qed.

(** X4 from the empty store: Bob registers and posts; a cookie that names
    nobody posts nothing. *)
Lemma run_keeps_posts_authored_witness :
  posts_have_authors (db empty_world)
  /\ posts_have_authors
       (db (run (H := toy_context) (H0 := stable_engine)
              [PostRegister "s2" "bob" "pw2" "b@x.com";
               PostPost "u-1" 100 (request_as "bob") "hello" None;
               PostPost "u-2" 101 (request_as "eve") "hi" None] empty_world)).
Proof.
  assert (A : posts_have_authors (db empty_world)) by constructor.
  split; [exact A|].
  exact (run_keeps_posts_authored (pwd_context := toy_context) (engine := stable_engine)
           _ empty_world A).
Defined.

(** ** What the routes write and raise *)

(** X5. Only [POST /register] and [POST /post] write: every other route
    leaves the database, the upload area and the trace exactly as they
    were, whatever it answers. *)
Theorem serve_reads_only {pwd_context : CryptContext} {engine : QueryEngine} :
  forall (r : HttpRequest) (w : World),
    writes r = false -> snd (serve r w) = w.
Proof.
  intros r w Wr. destruct r; simpl in *; try discriminate; try reflexivity.
  - unfold GET_home. now rewrite bind_get_current_user.
  - now rewrite login_cases.
  - unfold GET_dashboard. rewrite bind_get_current_user.
    now destruct (resolved_identity request w).
  - unfold GET_profile. rewrite bind_get_current_user. now rewrite user_profile_cases.
  - unfold GET_admin. rewrite bind_get_current_user. now rewrite admin_dashboard_cases.
Qed.

(** X5 at a failed login and at the admin listing. *)
Lemma serve_reads_only_witness :
  writes (PostLogin "bob" "wrong") = false
  /\ snd (serve (H := toy_context) (H0 := stable_engine) (PostLogin "bob" "wrong")
            (posted_twice 100 200))
     = posted_twice 100 200.
Proof.
  split; [reflexivity|].
  exact (serve_reads_only (pwd_context := toy_context) (engine := stable_engine)
           (PostLogin "bob" "wrong") (posted_twice 100 200) eq_refl).
Defined.

(** X6. The exceptions of the application, route by route.  Registration
    ends only in the 400 or in passlib's refusal of the password; login
    only in the 401, in that refusal, or in the encoding error of a cookie
    for a name with a character above U+00FF; the profile only in the 404;
    the admin listing only in the 403; post creation only in the error of
    its upload (an OSError, or the ValueError of a path with a NUL), and in
    none without an attached file.  The other routes raise nothing, and no
    route ends in an IntegrityError. *)
Theorem serve_raises_only {pwd_context : CryptContext} {engine : QueryEngine} :
  forall (r : HttpRequest) (w : World) (e : Exception),
    fst (serve r w) = Raise e ->
    may_raise r e /\ forall column, e <> IntegrityError column.
Proof.
  intros r w e F.
  assert (M : may_raise r e).
  { revert F. destruct r; simpl.
    - unfold GET_home. rewrite bind_get_current_user. discriminate.
    - discriminate.
    - rewrite register_user_cases. destruct (existsb _ _); simpl; [now intros [= <-]; left|].
      destruct (validate_secret password) as [[]|e'] eqn:V; simpl; [discriminate|].
      intros [= <-]. now right.
    - discriminate.
    - rewrite login_cases. simpl.
      destruct (first _) as [u|] eqn:S; [|now intros [= <-]; left].
      apply first_by_username, stored_user_in in S. destruct S as [_ <-].
      unfold verify_password, pwd_context_verify, set_cookie.
      destruct (validate_secret password) as [[]|e'] eqn:V;
        [|intros [= <-]; right; now left].
      destruct (verify _ _); [|now intros [= <-]; left].
      destruct (latin1_encodable (User.username u)) eqn:L; [discriminate|].
      intros [= <-]. right. right. now split.
    - discriminate.
    - unfold GET_dashboard. rewrite bind_get_current_user.
      destruct (resolved_identity request w); discriminate.
    - unfold POST_post. rewrite bind_get_current_user.
      destruct (resolved_identity request w) as [u|]; [|discriminate].
      destruct (create_post_effect uuid now request content image u w)
        as [(G & _) | (name & data & -> & _ & G & _)]; rewrite G.
      + discriminate.
      + now intros [= <-].
    - unfold GET_profile. rewrite bind_get_current_user, user_profile_cases. simpl.
      destruct (first _); [discriminate | now intros [= <-]].
    - unfold GET_admin. rewrite bind_get_current_user, admin_dashboard_cases. simpl.
      destruct (resolved_identity request w) as [u|]; [|now intros [= <-]].
      destruct (User.is_admin u); [discriminate | now intros [= <-]]. }
  split; [exact M|]. intros column ->.
  destruct r; simpl in M; try contradiction.
  - destruct M as [M|M]; [discriminate|].
    apply validate_secret_raises in M. destruct M; discriminate.
  - destruct M as [M|[M|[_ M]]]; try discriminate.
    apply validate_secret_raises in M. destruct M; discriminate.
  - destruct image as [[[name|] data]|]; try contradiction.
    unfold open_error in M. destruct (has_nul _); discriminate.
  - discriminate.
  - discriminate.
Qed.

(** X6 at an upload to a full disk. *)
Lemma serve_raises_only_witness :
  let w := {| db := db alice_and_bob; fs := full_disk; trace := [] |} in
  let r := PostPost "u-1" 100 (request_as "bob") "hello" (Some cat_picture) in
  fst (serve (H := toy_context) (H0 := stable_engine) r w)
  = Raise (OSError "static/uploads/u-1.png")
  /\ may_raise r (OSError "static/uploads/u-1.png").
Proof.
  cbv zeta.
  assert (F : fst (serve (H := toy_context) (H0 := stable_engine)
                     (PostPost "u-1" 100 (request_as "bob") "hello" (Some cat_picture))
                     {| db := db alice_and_bob; fs := full_disk; trace := [] |})
              = Raise (OSError "static/uploads/u-1.png")) by reflexivity.
  split; [exact F|].
  exact (proj1 (serve_raises_only (pwd_context := toy_context) (engine := stable_engine)
                  _ _ _ F)).
Defined.

(** ** Start-up *)

(** X7. Start-up is idempotent: run again (the application restarts), with
    whatever salt, it finds a User and writes nothing, so there is never a
    second superuser row. *)
Theorem lifespan_startup_idempotent {pwd_context : CryptContext} :
  forall (salt salt' : string) (w : World),
    lifespan_startup salt' (snd (lifespan_startup salt w))
    = (Return tt, snd (lifespan_startup salt w)).
Proof.
  intros salt salt' w. unfold lifespan_startup.
  rewrite (create_superuser_cases salt w).
  destruct (users (db w)) eqn:U; cbv zeta; cbn [snd].
  - now rewrite create_superuser_cases.
  - rewrite create_superuser_cases. now rewrite U.
Qed.

Lemma stored_user_head (u : User.t) (rest : list User.t) :
  stored_user (u :: rest) (User.username u) u.
Proof. exists [], rest. repeat split. constructor. Qed.

Lemma login_stored_user {pwd_context : CryptContext} (username password : string)
  (w : World) (u : User.t) :
  stored_user (users (db w)) username u ->
  verify_password u password = Return true ->
  login username password w
  = (if latin1_encodable username
     then Return (with_cookie "username" username (redirect_to "/dashboard"))
     else Raise (UnicodeEncodeError username), w).
Proof.
  intros S V. destruct (stored_user_in _ _ _ S) as [_ N].
  apply first_by_username in S. rewrite login_cases, S, V.
  unfold set_cookie. now rewrite N.
Qed.

(** X8. After start-up on a store without Users, the pair [admin] /
    [admin] logs in, as an admin, and still does after any requests served
    since: the superuser's password is the literal of [create_superuser]
    and no route changes it.  (The context has to verify that password
    against its own hash.) *)
Theorem default_admin_logs_in {pwd_context : CryptContext} {engine : QueryEngine} :
  forall (salt : string) (w : World) (rs : list HttpRequest),
    users (db w) = [] ->
    verify "admin" (hash salt "admin") = true ->
    let served := run rs (snd (lifespan_startup salt w)) in
    login "admin" "admin" served
    = (Return (with_cookie "username" "admin" (redirect_to "/dashboard")), served)
    /\ exists u, resolved_identity (request_as "admin") served = Some u
                 /\ User.is_admin u = true.
Proof.
  intros salt w rs E V. cbv zeta.
  set (row := User.mk 1 "admin" "admin@example.com" (hash salt "admin") true).
  assert (S0 : users (db (snd (lifespan_startup salt w))) = [row]).
  { unfold lifespan_startup. rewrite create_superuser_cases, E. reflexivity. }
  destruct (run_keeps_users rs (snd (lifespan_startup salt w))) as (added & K).
  assert (S : stored_user (users (db (run rs (snd (lifespan_startup salt w)))))
                "admin" row).
  { rewrite K, S0. apply (stored_user_app [row] added "admin" row).
    apply (stored_user_head row []). }
  split.
  - rewrite (login_stored_user "admin" "admin" _ row S); [reflexivity|].
    unfold verify_password, pwd_context_verify. cbn [User.hashed_password row].
    change (validate_secret "admin") with (Return tt). now rewrite V.
  - exists row. split; [|reflexivity].
    unfold resolved_identity, request_as. cbn [cookies cookies_get String.eqb Ascii.eqb].
    simpl. now apply first_by_username.
Qed.

(** X8 on the empty store, with two registrations after start-up. *)
Lemma default_admin_logs_in_witness :
  users (db empty_world) = []
  /\ @verify toy_context "admin" (@hash toy_context "s0" "admin") = true
  /\ fst (login (pwd_context := toy_context) "admin" "admin"
            (run (H := toy_context) (H0 := stable_engine)
               [PostRegister "s1" "alice" "pw1" "a@x.com";
                PostRegister "s2" "admin" "mine" "b@x.com"]
               (snd (lifespan_startup (pwd_context := toy_context) "s0" empty_world))))
     = Return (with_cookie "username" "admin" (redirect_to "/dashboard")).
Proof.
  assert (E : users (db empty_world) = []) by reflexivity.
  assert (V : @verify toy_context "admin" (@hash toy_context "s0" "admin") = true)
    by reflexivity.
  split; [exact E|]. split; [exact V|].
  exact (f_equal fst (proj1 (default_admin_logs_in (pwd_context := toy_context)
                               (engine := stable_engine) "s0" empty_world _ E V))).
Defined.

(** ** Sessions *)

(** X9. Register, then log in: a registration with a new name and a new
    email, whose password passlib hashes and verifies against that hash,
    makes a User who logs in with the same password, at once and after any
    requests served since, if the name can go into a cookie header: the
    answer redirects to the dashboard and sets the cookie to the name.  A
    User whose name has a character above U+00FF is registered all the
    same, and each login with the right password ends in the
    UnicodeEncodeError of [set_cookie]. *)
Theorem registered_user_logs_in {pwd_context : CryptContext} {engine : QueryEngine} :
  forall (salt username password email hashed : string) (w : World)
         (rs : list HttpRequest),
    (forall u, In u (users (db w)) ->
               User.username u <> username /\ User.email u <> email) ->
    pwd_context_hash salt password = Return hashed ->
    pwd_context_verify password hashed = Return true ->
    let served := run rs (snd (register_user salt username password email w)) in
    login username password served
    = (if latin1_encodable username
       then Return (with_cookie "username" username (redirect_to "/dashboard"))
       else Raise (UnicodeEncodeError username), served).
Proof.
  intros salt username password email hashed w rs Fresh Hh Hv. cbv zeta.
  set (row := registered_row salt username password email w).
  assert (Valid : validate_secret password = Return tt).
  { unfold pwd_context_hash in Hh.
    destruct (validate_secret password) as [[]|e]; [reflexivity | discriminate]. }
  assert (Hrow : hashed = User.hashed_password row).
  { unfold pwd_context_hash in Hh. rewrite Valid in Hh. now injection Hh as <-. }
  assert (S0 : users (db (snd (register_user salt username password email w)))
               = users (db w) ++ [row]).
  { rewrite register_user_cases.
    assert (X : existsb (collides username email) (users (db w)) = false).
    { apply not_true_is_false. intros H. apply existsb_exists in H.
      destruct H as (u & Hin & C). destruct (Fresh u Hin) as [Nu Ne].
      unfold collides in C. apply orb_true_iff in C.
      destruct C as [C|C]; apply String.eqb_eq in C; contradiction. }
    now rewrite X, Valid. }
  destruct (run_keeps_users rs (snd (register_user salt username password email w)))
    as (added & K).
  apply (login_stored_user username password _ row).
  - rewrite K, S0. apply stored_user_app.
    exists (users (db w)), []. repeat split.
    apply Forall_forall. intros u Hu. now apply Fresh.
  - unfold verify_password. now rewrite <- Hrow.
Qed.

(** X9 at Bob, with Alice's registration and a failed login in between. *)
Lemma registered_user_logs_in_witness :
  (forall u, In u (users (db empty_world)) ->
             User.username u <> "bob" /\ User.email u <> "b@x.com")
  /\ pwd_context_hash (H := toy_context) "s2" "pw2" = Return "s2$pw2"
  /\ pwd_context_verify (H := toy_context) "pw2" "s2$pw2" = Return true
  /\ fst (login (pwd_context := toy_context) "bob" "pw2"
            (run (H := toy_context) (H0 := stable_engine)
               [PostRegister "s1" "alice" "pw1" "a@x.com"; PostLogin "bob" "pw1"]
               (snd (register_user (pwd_context := toy_context)
                       "s2" "bob" "pw2" "b@x.com" empty_world))))
     = Return (with_cookie "username" "bob" (redirect_to "/dashboard")).
Proof.
  assert (F : forall u, In u (users (db empty_world)) ->
                        User.username u <> "bob" /\ User.email u <> "b@x.com")
    by (intros u []).
  assert (Hh : pwd_context_hash (H := toy_context) "s2" "pw2" = Return "s2$pw2")
    by reflexivity.
  assert (Hv : pwd_context_verify (H := toy_context) "pw2" "s2$pw2" = Return true)
    by reflexivity.
  split; [exact F|]. split; [exact Hh|]. split; [exact Hv|].
  exact (f_equal fst (registered_user_logs_in (pwd_context := toy_context)
                        (engine := stable_engine)
                        "s2" "bob" "pw2" "b@x.com" "s2$pw2" empty_world _ F Hh Hv)).
Defined.

Lemma cookies_get_after_set (key value : string) (b : Body) (jar : list (string * string)) :
  cookies_get key (browser_receive jar (with_cookie key value (respond b))) = Some value.
Proof.
  unfold browser_receive, with_cookie, respond. simpl. now rewrite String.eqb_refl.
Qed.

Lemma resolved_identity_by_cookie (request : Request) (w : World) (name : string)
  (u : User.t) :
  cookies_get "username" (cookies request) = Some name ->
  name <> "" ->
  stored_user (users (db w)) name u ->
  resolved_identity request w = Some u.
Proof.
  intros C N S. unfold resolved_identity. rewrite C.
  apply String.eqb_neq in N. rewrite N. now apply first_by_username.
Qed.

(** X10. Log in, then come back: when login answers for a user name that
    is not empty, a browser that applies the answer to its cookies,
    whatever they were, is resolved to the stored User of that name on its
    next request, and the dashboard shows that User's page instead of
    redirecting. *)
Theorem login_opens_session {pwd_context : CryptContext} :
  forall (username password : string) (w : World) (response : Response)
         (jar : list (string * string)),
    fst (login username password w) = Return response ->
    username <> "" ->
    let request := {| cookies := browser_receive jar response |} in
    exists u,
      stored_user (users (db w)) username u
      /\ get_current_user request w = (Return (Some u), w)
      /\ GET_dashboard request w = (Return (dashboard_page request u), w).
Proof.
  intros username password w response jar L N. cbv zeta.
  rewrite login_cases in L. cbn [fst] in L.
  destruct (first _) as [u|] eqn:F; [|discriminate].
  destruct (verify_password u password) as [[|]|e]; try discriminate.
  unfold set_cookie in L.
  destruct (latin1_encodable (User.username u)); [|discriminate]. injection L as <-.
  apply first_by_username in F. destruct (stored_user_in _ _ _ F) as [_ E].
  exists u. split; [exact F|].
  assert (R : resolved_identity
                {| cookies := browser_receive jar
                     (with_cookie "username" (User.username u) (redirect_to "/dashboard")) |} w
              = Some u).
  { apply resolved_identity_by_cookie with (name := username).
    - cbn [cookies]. unfold redirect_to. rewrite cookies_get_after_set. now rewrite E.
    - exact N.
    - exact F. }
  split.
  - rewrite get_current_user_cases. now fold (resolved_identity
      {| cookies := browser_receive jar
           (with_cookie "username" (User.username u) (redirect_to "/dashboard")) |} w);
      rewrite R.
  - unfold GET_dashboard. rewrite bind_get_current_user, R. reflexivity.
Qed.

(** X10 at Bob, whose browser still holds Alice's cookie. *)
Lemma login_opens_session_witness :
  let response := with_cookie "username" "bob" (redirect_to "/dashboard") in
  fst (login (pwd_context := toy_context) "bob" "pw2" alice_and_bob) = Return response
  /\ "bob" <> ""
  /\ exists u,
       stored_user (users (db alice_and_bob)) "bob" u
       /\ get_current_user
            {| cookies := browser_receive [("username", "alice")] response |} alice_and_bob
          = (Return (Some u), alice_and_bob)
       /\ GET_dashboard
            {| cookies := browser_receive [("username", "alice")] response |} alice_and_bob
          = (Return (dashboard_page
                       {| cookies := browser_receive [("username", "alice")] response |} u),
             alice_and_bob).
Proof.
  cbv zeta.
  assert (L : fst (login (pwd_context := toy_context) "bob" "pw2" alice_and_bob)
              = Return (with_cookie "username" "bob" (redirect_to "/dashboard")))
    by reflexivity.
  assert (N : "bob" <> "") by discriminate.
  split; [exact L|]. split; [exact N|].
  exact (login_opens_session (pwd_context := toy_context) "bob" "pw2" alice_and_bob
           _ [("username", "alice")] L N).
Defined.

(** X11. The cookie is the whole credential: a request that carries
    [username=name] for a stored User with a name that is not empty is
    served as that User, with no password checked.  The dashboard shows
    that User's page, a post is committed under that User's id, and, if
    the User is an admin, the admin listing answers. *)
Theorem cookie_alone_identifies {engine : QueryEngine} :
  forall (name : string) (u : User.t) (w : World),
    stored_user (users (db w)) name u ->
    name <> "" ->
    GET_dashboard (request_as name) w = (Return (dashboard_page (request_as name) u), w)
    /\ (forall uuid now content,
          exists post,
            posts (db (snd (POST_post uuid now (request_as name) content None w)))
            = posts (db w) ++ [post]
            /\ Post.user_id post = User.id u
            /\ Post.content post = content)
    /\ (User.is_admin u = true ->
        exists page, GET_admin (request_as name) w = (Return page, w)).
Proof.
  intros name u w S N.
  assert (R : resolved_identity (request_as name) w = Some u).
  { apply resolved_identity_by_cookie with (name := name); auto. }
  split; [|split].
  - unfold GET_dashboard. now rewrite bind_get_current_user, R.
  - intros uuid now content. unfold POST_post.
    rewrite bind_get_current_user, R, create_post_without_image.
    eexists. cbv zeta. cbn [snd db posts]. repeat split.
  - intros A. unfold GET_admin.
    rewrite bind_get_current_user, R, admin_dashboard_cases, A. eexists. reflexivity.
Qed.

(** X11 at Alice's name, sent by somebody who never logged in. *)
Lemma cookie_alone_identifies_witness :
  stored_user (users (db alice_and_bob)) "alice" alice_row
  /\ "alice" <> ""
  /\ exists page,
       GET_admin (engine := stable_engine) (request_as "alice") alice_and_bob
       = (Return page, alice_and_bob).
Proof.
  assert (S : stored_user (users (db alice_and_bob)) "alice" alice_row)
    by apply (stored_user_head alice_row [bob_row]).
  assert (N : "alice" <> "") by discriminate.
  split; [exact S|]. split; [exact N|].
  exact (proj2 (proj2 (cookie_alone_identifies (engine := stable_engine)
                         "alice" alice_row alice_and_bob S N)) eq_refl).
Defined.

(** ** Posts and uploads *)

Lemma files_get_put_same (path data : string) (l : list (string * string)) :
  files_get path (files_put path data l) = Some data.
Proof.
  induction l as [|[p d] l IH]; simpl.
  - now rewrite String.eqb_refl.
  - destruct (String.eqb p path) eqn:E; simpl.
    + now rewrite String.eqb_refl.
    + now rewrite E.
Qed.

Lemma files_get_put_other (path data other : string) (l : list (string * string)) :
  other <> path -> files_get other (files_put path data l) = files_get other l.
Proof.
  intros N. induction l as [|[p d] l IH]; simpl.
  - apply String.eqb_neq in N. rewrite String.eqb_sym. now rewrite N.
  - destruct (String.eqb p path) eqn:E; simpl.
    + apply String.eqb_eq in E. subst p.
      assert (String.eqb path other = false) as ->
        by (apply String.eqb_neq; congruence).
      reflexivity.
    + destruct (String.eqb p other); [reflexivity | exact IH].
Qed.

(** X12. An upload that goes through can be read back where the Post says
    it is: the Post's [image_path], under the static directory, names a
    file of the upload area that holds exactly the bytes sent, and every
    other file holds what it held. *)
Theorem uploaded_image_is_stored :
  forall (uuid : string) (now : Z) (request : Request) (content name data : string)
         (u : User.t) (w : World),
    name <> "" ->
    open_ok (fs w) (UPLOAD_DIR ++ "/" ++ uuid ++ splitext_ext name)%string = true ->
    write_ok (fs w) (UPLOAD_DIR ++ "/" ++ uuid ++ splitext_ext name)%string data = true ->
    let image := Some {| filename := Some name; file_data := data |} in
    let after := snd (create_post uuid now request content image (Some u) w) in
    exists post relative,
      posts (db after) = posts (db w) ++ [post]
      /\ Post.image_path post = Some relative
      /\ files_get ("static/" ++ relative)%string (files (fs after)) = Some data
      /\ forall other, other <> ("static/" ++ relative)%string ->
           files_get other (files (fs after)) = files_get other (files (fs w)).
Proof.
  intros uuid now request content name data u w N O Wr. cbv zeta.
  rewrite create_post_with_image by exact N. cbv zeta. rewrite O, Wr.
  cbn [snd db fs posts files].
  eexists. exists ("uploads/" ++ uuid ++ splitext_ext name)%string.
  split; [reflexivity|]. split; [reflexivity|].
  change ("static/" ++ ("uploads/" ++ uuid ++ splitext_ext name))%string
    with (UPLOAD_DIR ++ "/" ++ uuid ++ splitext_ext name)%string.
  split.
  - apply files_get_put_same.
  - intros other Ne. now rewrite !files_get_put_other.
Qed.

(** X12 at a picture of a cat. *)
Lemma uploaded_image_is_stored_witness :
  "cat.png" <> ""
  /\ open_ok (fs alice_and_bob) "static/uploads/u-1.png" = true
  /\ write_ok (fs alice_and_bob) "static/uploads/u-1.png" "PNG" = true
  /\ exists post relative,
       posts (db (snd (create_post "u-1" 100 (request_as "bob") "hello"
                         (Some cat_picture) (Some bob_row) alice_and_bob)))
       = posts (db alice_and_bob) ++ [post]
       /\ Post.image_path post = Some relative
       /\ files_get ("static/" ++ relative)%string
            (files (fs (snd (create_post "u-1" 100 (request_as "bob") "hello"
                               (Some cat_picture) (Some bob_row) alice_and_bob))))
          = Some "PNG"
       /\ forall other, other <> ("static/" ++ relative)%string ->
            files_get other
              (files (fs (snd (create_post "u-1" 100 (request_as "bob") "hello"
                                 (Some cat_picture) (Some bob_row) alice_and_bob))))
            = files_get other (files (fs alice_and_bob)).
Proof.
  assert (N : "cat.png" <> "") by discriminate.
  split; [exact N|]. split; [reflexivity|]. split; [reflexivity|].
  exact (uploaded_image_is_stored "u-1" 100 (request_as "bob") "hello" "cat.png" "PNG"
           bob_row alice_and_bob N eq_refl eq_refl).
Defined.

(** X13. A Post that is created shows where it should: on the profile of
    every User whose id is the author's and on no other profile, and in
    the admin listing.  The new row carries the content sent, the clock
    reading, and the id of the resolved identity. *)
Theorem new_post_is_listed {engine : QueryEngine} {laws : QueryEngineLaws engine} :
  forall (uuid : string) (now : Z) (request : Request) (content : string)
         (image : option UploadFile) (u : User.t) (w : World) (response : Response),
    fst (create_post uuid now request content image (Some u) w) = Return response ->
    let after := snd (create_post uuid now request content image (Some u) w) in
    exists post,
      posts (db after) = posts (db w) ++ [post]
      /\ (Post.content post, Post.created_at post, Post.user_id post)
         = (content, now, User.id u)
      /\ (forall (viewing : Request) (name : string) (viewer : option User.t) (pu : User.t),
            stored_user (users (db after)) name pu ->
            exists listed,
              user_profile viewing name viewer after
              = (Return (profile_page viewing pu listed viewer), after)
              /\ (In post listed <-> User.id pu = User.id u))
      /\ In post (order_by_created_at_desc (posts (db after))).
Proof.
  intros uuid now request content image u w response F. cbv zeta.
  destruct (create_post_effect uuid now request content image u w)
    as [(_ & U & P) | (name & data & _ & _ & F' & _)];
    [|rewrite F' in F; discriminate].
  eexists. split; [exact P|]. split; [reflexivity|]. split.
  - intros viewing name viewer pu S.
    eexists. split; [now apply user_profile_found|].
    rewrite P. split.
    + intros H. eapply Permutation_in in H;
        [|apply Permutation_sym, order_by_permutation].
      apply filter_In in H. destruct H as [_ H]. unfold owned_by in H.
      cbn [Post.user_id] in H. apply Z.eqb_eq in H. now symmetry.
    + intros E. eapply Permutation_in; [apply order_by_permutation|].
      apply filter_In. split.
      * apply in_or_app. right. now left.
      * unfold owned_by. cbn [Post.user_id]. apply Z.eqb_eq. now symmetry.
  - eapply Permutation_in; [apply order_by_permutation|].
    rewrite P. apply in_or_app. right. now left.
Qed.

(** X13 at Bob's first post: on Bob's profile, not on Alice's. *)
Lemma new_post_is_listed_witness :
  QueryEngineLaws stable_engine
  /\ fst (create_post "u-1" 100 (request_as "bob") "hello" None (Some bob_row) alice_and_bob)
     = Return (redirect_to "/dashboard")
  /\ exists post,
       posts (db (snd (create_post "u-1" 100 (request_as "bob") "hello" None
                         (Some bob_row) alice_and_bob)))
       = posts (db alice_and_bob) ++ [post]
       /\ (Post.content post, Post.created_at post, Post.user_id post) = ("hello", 100, 2)
       /\ (forall (viewing : Request) (name : string) (viewer : option User.t)
                  (pu : User.t),
             stored_user
               (users (db (snd (create_post "u-1" 100 (request_as "bob") "hello" None
                                  (Some bob_row) alice_and_bob)))) name pu ->
             exists listed,
               user_profile (engine := stable_engine) viewing name viewer
                 (snd (create_post "u-1" 100 (request_as "bob") "hello" None
                         (Some bob_row) alice_and_bob))
               = (Return (profile_page viewing pu listed viewer),
                  snd (create_post "u-1" 100 (request_as "bob") "hello" None
                         (Some bob_row) alice_and_bob))
               /\ (In post listed <-> User.id pu = 2))
       /\ In post (stable_sort_desc
                     (posts (db (snd (create_post "u-1" 100 (request_as "bob") "hello" None
                                        (Some bob_row) alice_and_bob))))).
Proof.
  split; [exact stable_engine_laws|]. split; [reflexivity|].
  exact (new_post_is_listed (engine := stable_engine) (laws := stable_engine_laws)
           "u-1" 100 (request_as "bob") "hello" None bob_row alice_and_bob
           (redirect_to "/dashboard") eq_refl).
Defined.

(** ** File extensions *)

Lemma get_some_length (s : string) (k : nat) (a : ascii) :
  get k s = Some a -> (k < String.length s)%nat.
Proof.
  revert k. induction s as [|b s IH]; intros k; simpl; [discriminate|].
  destruct k as [|k]; [lia|]. intros H. apply IH in H. lia.
Qed.

(** [rfind_from] either finds nothing and returns [found], or returns the
    last position of [c]. *)
Lemma rfind_from_last (c : ascii) (s : string) (i found : Z) :
  (rfind_from c s i found = found /\ char_free c s)
  \/ (exists k, rfind_from c s i found = i + Z.of_nat k
                /\ get k s = Some c
                /\ forall j, (k < j)%nat -> get j s <> Some c).
Proof.
  revert i found. induction s as [|a s IH]; intros i found; simpl.
  - left. split; [reflexivity|]. intros k. simpl. discriminate.
  - destruct (IH (i + 1) (if Ascii.eqb a c then i else found))
      as [[E F] | (k & E & G & L)]; rewrite E.
    + destruct (Ascii.eqb a c) eqn:A.
      * right. exists 0%nat. apply Ascii.eqb_eq in A. subst a.
        split; [simpl; lia|]. split; [reflexivity|].
        intros [|j] Hj; [lia|]. simpl. apply F.
      * left. split; [reflexivity|]. apply Ascii.eqb_neq in A.
        intros [|k]; simpl; [congruence | apply F].
    + right. exists (S k). split; [lia|]. split; [exact G|].
      intros [|j] Hj; [lia|]. simpl. apply L. lia.
Qed.

Lemma substring_whole (s : string) (m : nat) :
  (String.length s <= m)%nat -> substring 0 m s = s.
Proof.
  revert m. induction s as [|a s IH]; intros m H; simpl in *.
  - now destruct m.
  - destruct m as [|m]; [lia|]. rewrite IH by lia. reflexivity.
Qed.

Lemma substring_split (s : string) (n m : nat) :
  (String.length s <= m)%nat -> s = (substring 0 n s ++ substring n m s)%string.
Proof.
  revert n m. induction s as [|a s IH]; intros n m H.
  - destruct n, m; reflexivity.
  - destruct n as [|n].
    + simpl substring at 1. cbn [append]. now rewrite substring_whole.
    + simpl in H. simpl. f_equal. apply IH. lia.
Qed.

Lemma append_empty_r (s : string) : (s ++ "")%string = s.
Proof. induction s as [|a s IH]; simpl; [reflexivity | now rewrite IH]. Qed.

Lemma char_free_append (c : ascii) (s t : string) :
  char_free c s -> char_free c t -> char_free c (s ++ t).
Proof.
  intros Hs Ht k. destruct (Nat.lt_ge_cases k (String.length s)) as [L|G].
  - rewrite <- append_correct1 by exact L. apply Hs.
  - replace k with ((k - String.length s) + String.length s)%nat by lia.
    rewrite <- append_correct2. apply Ht.
Qed.

(** X14. The extension [create_post] keeps from the file name is a suffix
    of that name, is empty or begins with a dot, and holds no [/].  So
    the name of the stored file, the uuid followed by the extension, has
    no [/] when the uuid has none: whatever name the client sends, the
    file lands directly in the upload directory. *)
Theorem splitext_ext_stays_in_upload_dir :
  forall (name : string),
    (exists root, name = (root ++ splitext_ext name)%string)
    /\ (splitext_ext name = "" \/ get 0 (splitext_ext name) = Some "."%char)
    /\ char_free "/"%char (splitext_ext name)
    /\ (forall uuid, char_free "/"%char uuid ->
                     char_free "/"%char (uuid ++ splitext_ext name)).
Proof.
  intros name.
  assert (A : (exists root, name = (root ++ splitext_ext name)%string)
              /\ (splitext_ext name = "" \/ get 0 (splitext_ext name) = Some "."%char)
              /\ char_free "/"%char (splitext_ext name)).
  { unfold splitext_ext.
    destruct ((rfind "/" name <? rfind "." name) && _) eqn:C.
    - apply andb_true_iff in C. destruct C as [C _]. apply Z.ltb_lt in C.
      unfold rfind in *.
      destruct (rfind_from_last "." name 0 (-1)) as [[Ed _] | (kd & Ed & Gd & _)].
      + exfalso. rewrite Ed in C.
        destruct (rfind_from_last "/" name 0 (-1)) as [[Es _] | (ks & Es & _)];
          rewrite Es in C; lia.
      + rewrite Ed in *. replace (Z.to_nat (0 + Z.of_nat kd)) with kd by lia.
        pose proof (get_some_length _ _ _ Gd) as Len.
        split; [|split].
        * eexists. apply substring_split. lia.
        * right. rewrite substring_correct1 by lia. exact Gd.
        * intros k H.
          destruct (Nat.lt_ge_cases k (String.length name)) as [L|G];
            [|rewrite substring_correct2 in H by exact G; discriminate].
          rewrite substring_correct1 in H by exact L.
          destruct (rfind_from_last "/" name 0 (-1)) as [[_ F] | (ks & Es & _ & Ls)].
          -- exact (F _ H).
          -- rewrite Es in C. apply (Ls (k + kd)%nat); [lia | exact H].
    - split; [|split].
      + exists name. now rewrite append_empty_r.
      + now left.
      + intros k. simpl. discriminate. }
  destruct A as (A1 & A2 & A3). repeat split; auto.
  intros uuid U. now apply char_free_append.
Qed.

(** ** The store over time *)

(** X15. The store is append-only: after any requests, the rows of
    [users] and of [posts] that were there are still there, unchanged and
    in the same order, before whatever was added.  No route updates or
    deletes a row. *)
Theorem run_appends_only {pwd_context : CryptContext} {engine : QueryEngine} :
  forall (rs : list HttpRequest) (w : World),
    exists new_users new_posts,
      users (db (run rs w)) = users (db w) ++ new_users
      /\ posts (db (run rs w)) = posts (db w) ++ new_posts.
Proof.
  induction rs as [|r rs IH]; intros w; simpl.
  - exists [], []. now rewrite !app_nil_r.
  - destruct (IH (snd (serve r w))) as (nu & np & -> & ->).
    destruct (serve_effect r w)
      as [D | [(salt & username & password & email & _ & _ & U & P)
              | (uuid & now & request & content & image & u & post & _ & _ & _ & U & P)]].
    + rewrite D. now exists nu, np.
    + rewrite U, P, <- app_assoc. now eexists _, np.
    + rewrite U, P, <- app_assoc. now eexists nu, _.
Qed.

(** X16. A name or an email, once held by a User, is taken for good:
    after any requests, a registration that asks for it is refused with
    the 400 and writes nothing. *)
Theorem identity_stays_taken {pwd_context : CryptContext} {engine : QueryEngine} :
  forall (rs : list HttpRequest) (w : World) (holder : User.t)
         (salt username password email : string),
    In holder (users (db w)) ->
    User.username holder = username \/ User.email holder = email ->
    register_user salt username password email (run rs w)
    = (Raise DuplicateIdentity, run rs w).
Proof.
  intros rs w holder salt username password email Hin Hc.
  rewrite register_user_cases.
  destruct (run_keeps_users rs w) as (added & K).
  assert (X : existsb (collides username email) (users (db (run rs w))) = true).
  { apply existsb_exists. exists holder. split.
    - rewrite K. apply in_or_app. now left.
    - unfold collides. apply orb_true_iff.
      destruct Hc as [<-| <-]; [left|right]; apply String.eqb_refl. }
  now rewrite X.
Qed.

(** X16 at Bob's email, asked for again after Bob posted. *)
Lemma identity_stays_taken_witness :
  In bob_row (users (db alice_and_bob))
  /\ (User.username bob_row = "robert" \/ User.email bob_row = "b@x.com")
  /\ register_user (pwd_context := toy_context) "s3" "robert" "pw3" "b@x.com"
       (run (H := toy_context) (H0 := stable_engine)
          [PostPost "u-1" 100 (request_as "bob") "hello" None] alice_and_bob)
     = (Raise DuplicateIdentity,
        run (H := toy_context) (H0 := stable_engine)
          [PostPost "u-1" 100 (request_as "bob") "hello" None] alice_and_bob).
Proof.
  assert (I : In bob_row (users (db alice_and_bob))) by (right; left; reflexivity).
  assert (C : User.username bob_row = "robert" \/ User.email bob_row = "b@x.com")
    by (right; reflexivity).
  split; [exact I|]. split; [exact C|].
  exact (identity_stays_taken (pwd_context := toy_context) (engine := stable_engine)
           _ alice_and_bob bob_row "s3" "robert" "pw3" "b@x.com" I C).
Defined.

(** ** The library refusals, run *)

(** A password with a NUL is refused at registration (nothing is written)
    and at login for an existing name, but gives the 401 for an unknown
    name, which is decided first.  A User named with a character above
    U+00FF registers and then cannot be given a cookie; one named within
    latin-1 can.  A file name whose extension holds a NUL ends in the
    ValueError of [open], and no Post is committed. *)
Example library_refusals :
  let secret := String "a" (String "000"%char "b") in
  let upload := {| filename := Some (String "a" (String "." (String "000"%char "x")));
                   file_data := "D" |} in
  let with_l := snd (register_user (pwd_context := toy_context)
                       "s" "ł" "pw" "l@x.com" alice_and_bob) in
  let with_e := snd (register_user (pwd_context := toy_context)
                       "s" "é" "pw" "e@x.com" alice_and_bob) in
  register_user (pwd_context := toy_context) "s" "carol" secret "c@x.com" alice_and_bob
  = (Raise PasswordValueError, alice_and_bob)
  /\ fst (login (pwd_context := toy_context) "bob" secret alice_and_bob)
     = Raise PasswordValueError
  /\ fst (login (pwd_context := toy_context) "nobody" secret alice_and_bob)
     = Raise InvalidCredentials
  /\ map User.username (users (db with_l)) = ["alice"; "bob"; "ł"]
  /\ fst (login (pwd_context := toy_context) "ł" "pw" with_l)
     = Raise (UnicodeEncodeError "ł")
  /\ fst (login (pwd_context := toy_context) "é" "pw" with_e)
     = Return (with_cookie "username" "é" (redirect_to "/dashboard"))
  /\ create_post "u-1" 100 (request_as "bob") "hello" (Some upload) (Some bob_row)
       alice_and_bob
     = (Raise (ValueError "embedded null byte"), alice_and_bob).
Proof. cbv zeta. repeat split. Qed.
